(** * padel-point: match admission and listing rules

    A shallow embedding of the three revisions of the match API
    (band revision and middle revision in [functions/index.js], level-aware
    revision in the third source file) and the properties of their
    create / list / join / leave / edit handlers.

    The handlers are express callbacks over a Firestore document store.
    They are embedded as functions in a small state-and-exception monad
    over the store, which also records every write the handler issues.

    What lies outside the repository is taken as follows.  The caller of
    a protected route is the [uid] that the auth middleware has verified.
    A request body is a JSON object and a query parameter is a string or
    absent.  The store checks the values it is given only as far as the
    handlers can trip over it: it refuses [undefined] and functions.  The
    id of a new document and the server time are inputs of the handler.
    Requests are handled one at a time. *)

From Stdlib Require Import QArith Lqa.
From stdpp Require Import gmap strings list fin_maps pretty.

Set Warnings "-register-all".
#[local] Open Scope string_scope.

(** ** JavaScript values *)

Module JS.

(** Numbers.  A JavaScript number is an IEEE double; the handlers only
    compare numbers, add or subtract one half and add one to a length, so
    the finite ones are embedded as rationals. *)
Inductive number :=
  | NaN
  | NInf
  | Fin (q : Q)
  | PInf.

(** The values that flow through the handlers: JSON from request bodies,
    Firestore field values (including timestamps), [undefined] from absent
    properties and the function objects inherited from [Object.prototype]. *)
Inductive value :=
  | VUndef
  | VNull
  | VBool (b : bool)
  | VNum (n : number)
  | VStr (s : string)
  | VTimestamp (ms : Z)
  | VFun (name : string)
  | VArr (l : list value)
  | VObj (m : gmap string value).

Abbreviation obj := (gmap string value).

Definition num_of_nat (n : nat) : number := Fin (inject_Z (Z.of_nat n)).
Definition num_of_Z (z : Z) : number := Fin (inject_Z z).
Definition half : number := Fin (1 # 2).

(** [a < b] on numbers: false as soon as one side is [NaN]. *)
Definition num_lt (a b : number) : bool :=
  match a, b with
  | NaN, _ | _, NaN => false
  | NInf, NInf => false
  | NInf, _ => true
  | _, NInf => false
  | PInf, _ => false
  | Fin _, PInf => true
  | Fin x, Fin y => negb (Qle_bool y x)
  end.

(** [a <= b] on numbers. *)
Definition num_le (a b : number) : bool :=
  match a, b with
  | NaN, _ | _, NaN => false
  | NInf, _ => true
  | _, NInf => false
  | _, PInf => true
  | PInf, Fin _ => false
  | Fin x, Fin y => Qle_bool x y
  end.

Definition num_gt (a b : number) : bool := num_lt b a.
Definition num_ge (a b : number) : bool := num_le b a.

Definition num_add (a b : number) : number :=
  match a, b with
  | NaN, _ | _, NaN => NaN
  | PInf, NInf | NInf, PInf => NaN
  | PInf, _ | _, PInf => PInf
  | NInf, _ | _, NInf => NInf
  | Fin x, Fin y => Fin (x + y)
  end.

Definition num_neg (a : number) : number :=
  match a with
  | NaN => NaN
  | NInf => PInf
  | PInf => NInf
  | Fin x => Fin (- x)
  end.

Definition num_sub (a b : number) : number := num_add a (num_neg b).

(** [Math.max(a, b)] and [Math.min(a, b)]: [NaN] if either argument is. *)
Definition Math_max (a b : number) : number :=
  match a, b with
  | NaN, _ | _, NaN => NaN
  | _, _ => if num_lt a b then b else a
  end.

Definition Math_min (a b : number) : number :=
  match a, b with
  | NaN, _ | _, NaN => NaN
  | _, _ => if num_lt b a then b else a
  end.

(** [Number.isFinite] and [Number.isNaN] on a number. *)
Definition isFinite (n : number) : bool :=
  match n with Fin _ => true | _ => false end.

Definition isNaN (n : number) : bool :=
  match n with NaN => true | _ => false end.

Definition num_is_zero (n : number) : bool :=
  match n with Fin q => Qeq_bool q 0 | _ => false end.

(** [typeof v === 'number']. *)
Definition is_number (v : value) : bool :=
  match v with VNum _ => true | _ => false end.

(** Truthiness, as used by [!x], [x || y], [x ? y : z]. *)
Definition truthy (v : value) : bool :=
  match v with
  | VUndef | VNull => false
  | VBool b => b
  | VNum n => negb (isNaN n || num_is_zero n)
  | VStr s => negb (String.eqb s "")
  | VTimestamp _ | VFun _ | VArr _ | VObj _ => true
  end.

(** [a || b] and [a ?? b]. *)
Definition js_or (a b : value) : value := if truthy a then a else b.

Definition nullish (a b : value) : value :=
  match a with
  | VUndef | VNull => b
  | _ => a
  end.

(** Property read [o.k] on a plain object: [undefined] when absent. *)
Definition prop (o : obj) (k : string) : value := default VUndef (o !! k).

(** [x === 'literal'] for a string literal or a string variable. *)
Definition is_str (s : string) (v : value) : bool :=
  match v with VStr t => String.eqb t s | _ => false end.

(** [Array.isArray(x) ? x : []]. *)
Definition array_or_empty (v : value) : list value :=
  match v with VArr l => l | _ => [] end.

(** [arr.includes(s)] for a string [s]. *)
Definition includes (l : list value) (s : string) : bool :=
  existsb (is_str s) l.

(** The parts of the language runtime the handlers rely on and that are
    not written out here: parsing a string as a number, printing a number,
    converting an array, object or timestamp to its primitive string,
    [String.prototype.trim], and the members every object literal inherits
    from [Object.prototype] ([undefined] for a name that is not
    inherited). *)
Class Runtime := {
  StringToNumber : string -> number;
  NumberToString : number -> string;
  ObjectToString : value -> string;
  StringTrim : string -> string;
  ProtoMember : string -> value
}.

Section Coercions.
Context {RT : Runtime}.

(** [ToPrimitive]: arrays, objects, timestamps and functions become
    strings. *)
Definition ToPrimitive (v : value) : value :=
  match v with
  | VTimestamp _ | VFun _ | VArr _ | VObj _ => VStr (ObjectToString v)
  | _ => v
  end.

(** [Number(v)], also the coercion applied by [-] and by a comparison
    against a number. *)
Definition ToNumber (v : value) : number :=
  match v with
  | VUndef => NaN
  | VNull => Fin 0
  | VBool b => if b then Fin 1 else Fin 0
  | VNum n => n
  | VStr s => StringToNumber s
  | VTimestamp _ | VFun _ | VArr _ | VObj _ =>
      StringToNumber (ObjectToString v)
  end.

(** [String(v)], also the conversion of a value used as a property
    key. *)
Definition ToString (v : value) : string :=
  match v with
  | VUndef => "undefined"
  | VNull => "null"
  | VBool b => if b then "true" else "false"
  | VNum n => NumberToString n
  | VStr s => s
  | VTimestamp _ | VFun _ | VArr _ | VObj _ => ObjectToString v
  end.

(** [a + b]: concatenation as soon as one primitive is a string. *)
Definition js_add (a b : value) : value :=
  match ToPrimitive a, ToPrimitive b with
  | VStr s, pb => VStr (s ++ ToString pb)
  | pa, VStr s => VStr (ToString pa ++ s)
  | pa, pb => VNum (num_add (ToNumber pa) (ToNumber pb))
  end.

(** [a - b]. *)
Definition js_sub (a b : value) : number :=
  num_sub (ToNumber a) (ToNumber b).
End Coercions.

End JS.

(** ** The document store *)

Module Firestore.
Import JS.

(** The two collections the match handlers touch, by document id. *)
Record store := {
  profiles : gmap string obj;
  matches : gmap string obj
}.

(** What a handler may put in a field of [add] / [update]: a plain value
    or one of the [FieldValue] sentinels. *)
Inductive fieldop :=
  | FSet (v : value)
  | FArrayUnion (s : string)
  | FArrayRemove (s : string)
  | FServerTimestamp.

Abbreviation patch := (list (string * fieldop)).

(** A write issued against the [matches] collection. *)
Inductive write :=
  | WAdd (id : string) (data : patch)
  | WUpdate (id : string) (data : patch)
  | WDelete (id : string).

(** What [catch (e)] can receive. *)
Inductive exn :=
  | TypeError
  | InvalidValue
  | DocumentMissing
  | QueryRejected.

(** [arrayUnion(s)] appends [s] unless present and replaces a field that
    is not an array; [arrayRemove(s)] drops every occurrence of [s]. *)
Definition apply_fieldop (now : Z) (cur : option value) (op : fieldop)
  : value :=
  match op with
  | FSet v => v
  | FArrayUnion s =>
      match cur with
      | Some (VArr l) => if includes l s then VArr l else VArr (l ++ [VStr s])
      | _ => VArr [VStr s]
      end
  | FArrayRemove s =>
      match cur with
      | Some (VArr l) => VArr (List.filter (fun v => negb (is_str s v)) l)
      | _ => VArr []
      end
  | FServerTimestamp => VTimestamp now
  end.

(** Writing [p] over the document [d]: a field named in [p] gets its new
    value, computed from the stored one; every other field is kept. *)
Definition apply_patch (now : Z) (d : obj) (p : patch) : obj :=
  merge (fun old op =>
           match op with
           | Some o => Some (apply_fieldop now old o)
           | None => old
           end)
        d (list_to_map p : gmap string fieldop).

(** The store refuses [undefined] and functions as field values. *)
Definition storable (op : fieldop) : bool :=
  match op with
  | FSet VUndef | FSet (VFun _) => false
  | _ => true
  end.

Definition set_matches (s : store) (m : gmap string obj) : store :=
  {| profiles := profiles s; matches := m |}.

(** The state a handler runs in: the store and the writes issued so far,
    oldest first. *)
Record world := {
  db : store;
  trace : list write
}.

Inductive result (A : Type) :=
  | Done (a : A)
  | Thrown (e : exn).
Arguments Done {A} a.
Arguments Thrown {A} e.

Definition io (A : Type) : Type := world -> result A * world.

Definition ret {A} (a : A) : io A := fun w => (Done a, w).

Definition throw {A} (e : exn) : io A := fun w => (Thrown e, w).

Definition bind {A B} (m : io A) (k : A -> io B) : io B :=
  fun w =>
    match m w with
    | (Done a, w') => k a w'
    | (Thrown e, w') => (Thrown e, w')
    end.

Declare Scope io_scope.
Delimit Scope io_scope with io.
Notation "x <- m ;; k" := (bind m (fun x => k))
  (at level 100, m at next level, right associativity) : io_scope.
Notation "m ;;; k" := (bind m (fun _ => k))
  (at level 100, right associativity) : io_scope.

(** [await db.collection('profiles').doc(uid).get()]: the data, or
    nothing when [snap.exists] is false. *)
Definition get_profile (uid : string) : io (option obj) :=
  fun w => (Done (profiles (db w) !! uid), w).

(** [await db.collection('matches').doc(id).get()]. *)
Definition get_match (id : string) : io (option obj) :=
  fun w => (Done (matches (db w) !! id), w).

Definition commit (wr : write) (m : gmap string obj) (w : world) : world :=
  {| db := set_matches (db w) m; trace := trace w ++ [wr] |}.

(** [await db.collection('matches').add(data)], the store having chosen
    [id] for the new document. *)
Definition add_match (now : Z) (id : string) (data : patch) : io unit :=
  fun w =>
    if forallb (fun kv => storable kv.2) data
    then (Done tt,
          commit (WAdd id data)
                 (<[id := apply_patch now ∅ data]> (matches (db w))) w)
    else (Thrown InvalidValue, w).

(** [await ref.update(data)]: only an existing document can be updated. *)
Definition update_match (now : Z) (id : string) (data : patch) : io unit :=
  fun w =>
    if forallb (fun kv => storable kv.2) data
    then match matches (db w) !! id with
         | Some d =>
             (Done tt,
              commit (WUpdate id data)
                     (<[id := apply_patch now d data]> (matches (db w))) w)
         | None => (Thrown DocumentMissing, w)
         end
    else (Thrown InvalidValue, w).

(** [await ref.delete()]. *)
Definition delete_match (id : string) : io unit :=
  fun w => (Done tt, commit (WDelete id) (delete id (matches (db w))) w).

(** *** Queries *)

(** A query on [matches]: equality filters against strings, at most one
    [<=] filter, an optional [orderBy(field, 'desc')] and a limit. *)
Record query := {
  q_eq : list (string * string);
  q_le : option (string * value);
  q_order : option string;
  q_limit : nat
}.

(** The parts of the query engine taken as given: how values other than
    numbers compare, whether a stored [NaN] passes a range filter against
    a number (the store orders [NaN] before every number), the order in
    which documents come back (by the [orderBy] field, descending, or the
    default order), which is some rearrangement of the matching
    documents, and whether the engine serves a query at all (it rejects
    one it has no index for). *)
Class Storage := {
  fs_other_le : value -> value -> bool;
  fs_nan_le : bool;
  fs_sort : option string -> list (string * obj) -> list (string * obj);
  fs_sort_perm : forall o l, fs_sort o l ≡ₚ l;
  fs_serves : query -> bool
}.

Section Queries.
Context {ST : Storage}.

(** [x <= n] as the store decides it for a stored number [x] and a
    number [n] that is not [NaN]. *)
Definition fs_num_le (x n : number) : bool :=
  match x with
  | NaN => fs_nan_le
  | _ => num_le x n
  end.

(** A range filter only matches fields of the operand's type. *)
Definition fs_le (v operand : value) : bool :=
  match v, operand with
  | VNum x, VNum n => fs_num_le x n
  | VNum _, _ | _, VNum _ => false
  | _, _ => fs_other_le v operand
  end.

Definition has_field (f : string) (d : string * obj) : bool :=
  bool_decide (is_Some (d.2 !! f)).

Definition satisfies (q : query) (d : string * obj) : bool :=
  forallb (fun kv => is_str kv.2 (prop d.2 kv.1)) (q_eq q)
  && match q_le q with
     | Some (f, operand) =>
         match d.2 !! f with
         | Some v => fs_le v operand
         | None => false
         end
     | None => true
     end.

(** A range operand must be a value the store can hold, and not
    [NaN]. *)
Definition valid_operand (v : value) : bool :=
  match v with
  | VUndef | VFun _ | VNum NaN => false
  | _ => true
  end.

Definition select (q : query) (m : gmap string obj)
  : list (string * obj) :=
  let hits := List.filter (satisfies q) (map_to_list m) in
  let ordered :=
    match q_order q with
    | Some f => fs_sort (Some f) (List.filter (has_field f) hits)
    | None => fs_sort None hits
    end in
  take (q_limit q) ordered.

(** [await q.get()], as the list of [(d.id, d.data())]. *)
Definition run_query (q : query) : io (list (string * obj)) :=
  fun w =>
    if match q_le q with
       | Some (_, operand) => valid_operand operand
       | None => true
       end && fs_serves q
    then (Done (select q (matches (db w))), w)
    else (Thrown QueryRejected, w).
End Queries.

(** *** Responses *)

(** [res.status(code).json(body)]. *)
Record response := {
  code : nat;
  body : value
}.

Definition reply (c : nat) (b : value) : io response :=
  ret {| code := c; body := b |}.

(** [{ message: s }] and [{ error: s }]. *)
Definition message (s : string) : value := VObj {[ "message" := VStr s ]}.
Definition error (s : string) : value := VObj {[ "error" := VStr s ]}.

(** A quotation mark, for the messages that contain one. *)
Definition dquote : string := String (Ascii.ascii_of_nat 34) EmptyString.

(** A request parameter from the query string: [req.query.k || null],
    where an absent or empty parameter counts as not given. *)
Definition or_null (o : option string) : option string :=
  match o with
  | Some s => if String.eqb s "" then None else Some s
  | None => None
  end.

(** [{ id: id, ...data }]: a field named [id] in the data wins. *)
Definition with_id (id : string) (data : obj) : obj :=
  data ∪ {[ "id" := VStr id ]}.

(** [e.message]. *)
Definition exn_message (e : exn) : string :=
  match e with
  | TypeError => "TypeError"
  | InvalidValue => "invalid Firestore value"
  | DocumentMissing => "no document to update"
  | QueryRejected => "query rejected"
  end.

(** A request handler: from the state before to the response and the
    state after. *)
Definition handler : Type := world -> response * world.

(** [try { ... } catch (e) { res.status(500).json({ key: e.message }) }]. *)
Definition try_catch (wrap : string -> value) (h : io response) : handler :=
  fun w =>
    match h w with
    | (Done r, w') => (r, w')
    | (Thrown e, w') => ({| code := 500; body := wrap (exn_message e) |}, w')
    end.

(** Running a handler on a store, no write issued yet: the response, the
    store afterwards and the writes, oldest first. *)
Definition start (s : store) : world := {| db := s; trace := [] |}.

Definition answer (h : handler) (s : store) : response := (h (start s)).1.
Definition store_after (h : handler) (s : store) : store :=
  db (h (start s)).2.
Definition writes (h : handler) (s : store) : list write :=
  trace (h (start s)).2.

(** The stored match of a given id, empty when there is none. *)
Definition doc_at (s : store) (id : string) : obj :=
  default ∅ (matches s !! id).

End Firestore.

(** ** Band revision ([functions/index.js], first service) *)

Module Band.
Import JS Firestore.
#[local] Open Scope io_scope.

(** [const BAND_RANK = { '8va': 1, ..., '3ra': 6 }]. *)
Definition BAND_RANK : list (string * Z) :=
  [("8va", 1%Z); ("7ma", 2%Z); ("6ta", 3%Z);
   ("5ta", 4%Z); ("4ta", 5%Z); ("3ra", 6%Z)].

Fixpoint own_rank (table : list (string * Z)) (k : string) : option Z :=
  match table with
  | [] => None
  | (b, r) :: rest => if String.eqb b k then Some r else own_rank rest k
  end.

Definition is_null (v : value) : bool :=
  match v with VNull => true | _ => false end.

(** [b.createdAt?.toMillis?.() ?? 0]; nothing when the call throws
    because [toMillis] is there and is not a function. *)
Definition created_millis (v : value) : option Z :=
  match v with
  | VTimestamp ms => Some ms
  | VObj m =>
      match m !! "toMillis" with
      | None | Some VUndef | Some VNull => Some 0%Z
      | Some _ => None
      end
  | _ => Some 0%Z
  end.

Definition sort_key (m : obj) : Z :=
  default 0%Z (created_millis (prop m "createdAt")).

Fixpoint insert_desc (x : obj) (l : list obj) : list obj :=
  match l with
  | [] => [x]
  | y :: rest =>
      if (sort_key y <=? sort_key x)%Z then x :: y :: rest
      else y :: insert_desc x rest
  end.

(** [items.sort((a, b) => millis(b) - millis(a))]: newest first, ties
    in their previous order; the comparator runs, and may throw, once
    there are two items. *)
Definition sort_newest_first (items : list obj) : io (list obj) :=
  if (2 <=? length items)%nat
     && negb (forallb (fun m => bool_decide
                (is_Some (created_millis (prop m "createdAt")))) items)
  then throw TypeError
  else ret (foldr insert_desc [] items).

Section Handlers.
Context {RT : Runtime} {ST : Storage}.

(** [const rankOf = (b) => BAND_RANK[b] ?? null]. *)
Definition rankOf (b : value) : value :=
  match own_rank BAND_RANK (ToString b) with
  | Some r => VNum (num_of_Z r)
  | None => nullish (ProtoMember (ToString b)) VNull
  end.

(** [(x || dflt).trim()]. *)
Definition trimmed (x : value) (dflt : string) : io value :=
  match js_or x (VStr dflt) with
  | VStr s => ret (VStr (StringTrim s))
  | _ => throw TypeError
  end.

(** [app.post('/matches', authMiddleware, ...)]. *)
Definition post_matches (uid : string) (p : obj) (now : Z) (newId : string)
  : handler :=
  try_catch message (
    let players := [VStr uid] in
    let levelMinBand := js_or (prop p "levelMin") (VStr "8va") in
    let levelMaxBand := js_or (prop p "levelMax") (VStr "3ra") in
    title <- trimmed (prop p "title") "Partido" ;;
    let docData :=
      [ ("title", FSet title);
        ("date", FSet (js_or (prop p "date") VNull));
        ("time", FSet (js_or (prop p "time") VNull));
        ("location", FSet (js_or (prop p "location") VNull));
        ("mode", FSet (VStr "2v2"));
        ("zone", FSet (js_or (prop p "zone") VNull));
        ("levelMin", FSet levelMinBand);
        ("levelMax", FSet levelMaxBand);
        ("levelMinRank", FSet (rankOf levelMinBand));
        ("levelMaxRank", FSet (rankOf levelMaxBand));
        ("createdBy", FSet (VStr uid));
        ("createdAt", FServerTimestamp);
        ("updatedAt", FServerTimestamp);
        ("maxPlayers", FSet (VNum (Fin 4)));
        ("players", FSet (VArr players));
        ("status", FSet (VStr (if num_ge (num_of_nat (length players)) (Fin 4)
                               then "full" else "open"))) ] in
    add_match now newId docData ;;;
    snap <- get_match newId ;;
    reply 201 (VObj (with_id newId (default ∅ snap)))).

(** The query that the listing sends to the store: the date filter,
    the [levelMinRank <= levelRank] filter, and an ordering only when
    there is no filter. *)
Definition listing_query (levelRank : value) (date : option string) : query :=
  let hasFilter := bool_decide (is_Some date) || negb (is_null levelRank) in
  {| q_eq := match date with Some d => [("date", d)] | None => [] end;
     q_le := if negb (is_null levelRank)
             then Some ("levelMinRank", levelRank) else None;
     q_order := if hasFilter then None else Some "createdAt";
     q_limit := 50 |}.

(** [typeof m.levelMaxRank === 'number' ? m.levelMaxRank >= levelRank
    : true]. *)
Definition below_levelMaxRank (levelRank : value) (m : obj) : bool :=
  match prop m "levelMaxRank" with
  | VNum x => num_ge x (ToNumber levelRank)
  | _ => true
  end.

(** [app.get('/matches', ...)] with [?levelBand=&date=]. *)
Definition get_matches (qLevelBand qDate : option string) : handler :=
  try_catch message (
    let levelBand := or_null qLevelBand in
    let levelRank :=
      match levelBand with
      | Some b => rankOf (VStr b)
      | None => VNull
      end in
    let date := or_null qDate in
    let hasFilter := bool_decide (is_Some date) || negb (is_null levelRank) in
    snap <- run_query (listing_query levelRank date) ;;
    let items := map (fun d => with_id d.1 d.2) snap in
    let items :=
      if negb (is_null levelRank)
      then List.filter (below_levelMaxRank levelRank) items
      else items in
    items <- (if hasFilter then sort_newest_first items else ret items) ;;
    reply 200 (VArr (map VObj items))).

(** [Number(m.maxPlayers) || 4]. *)
Definition capacity (m : obj) : number :=
  let n := ToNumber (prop m "maxPlayers") in
  if truthy (VNum n) then n else Fin 4.

(** [app.post('/matches/:id/join', authMiddleware, ...)]. *)
Definition post_matches_join (uid id : string) (now : Z) : handler :=
  try_catch message (
    snap <- get_match id ;;
    match snap with
    | None => reply 404 (message "Partido no encontrado")
    | Some m =>
        let players := array_or_empty (prop m "players") in
        let maxPlayers := capacity m in
        if is_str uid (prop m "createdBy")
        then reply 400 (message "Sos el creador")
        else if includes players uid
        then reply 400 (message "Ya estás en el partido")
        else if num_ge (num_of_nat (length players)) maxPlayers
        then reply 400 (message "Partido lleno")
        else
          update_match now id
            [ ("players", FArrayUnion uid);
              ("status",
                FSet (VStr (if num_ge (num_add (num_of_nat (length players))
                                               (Fin 1)) maxPlayers
                            then "full" else "open")));
              ("updatedAt", FServerTimestamp) ] ;;;
          reply 200 (message "Te uniste")
    end).

(** [app.post('/matches/:id/leave', authMiddleware, ...)]. *)
Definition post_matches_leave (uid id : string) (now : Z) : handler :=
  try_catch message (
    snap <- get_match id ;;
    match snap with
    | None => reply 404 (message "Partido no encontrado")
    | Some m =>
        let players := array_or_empty (prop m "players") in
        if negb (includes players uid)
        then reply 400 (message "No estabas en el partido")
        else if is_str uid (prop m "createdBy")
        then reply 400 (message "El creador debe editar o eliminar")
        else
          update_match now id
            [ ("players", FArrayRemove uid);
              ("status", FSet (VStr "open"));
              ("updatedAt", FServerTimestamp) ] ;;;
          reply 200 (message "Saliste del partido")
    end).

(** [app.put('/matches/:id', authMiddleware, ...)]. *)
Definition put_matches (uid id : string) (p : obj) (now : Z) : handler :=
  try_catch message (
    snap <- get_match id ;;
    match snap with
    | None => reply 404 (message "Partido no encontrado")
    | Some d =>
        if negb (is_str uid (prop d "createdBy"))
        then reply 403 (message "No autorizado")
        else
          let keep k := FSet (nullish (prop p k) (prop d k)) in
          let patch :=
            [ ("title", keep "title");
              ("date", keep "date");
              ("time", keep "time");
              ("location", keep "location");
              ("zone", keep "zone");
              ("levelMin", keep "levelMin");
              ("levelMax", keep "levelMax");
              ("levelMinRank",
                FSet (if truthy (prop p "levelMin")
                      then rankOf (prop p "levelMin")
                      else prop d "levelMinRank"));
              ("levelMaxRank",
                FSet (if truthy (prop p "levelMax")
                      then rankOf (prop p "levelMax")
                      else prop d "levelMaxRank"));
              ("updatedAt", FServerTimestamp) ] in
          update_match now id patch ;;;
          updated <- get_match id ;;
          reply 200 (VObj (with_id id (default ∅ updated)))
    end).

(** [app.delete('/matches/:id', authMiddleware, ...)]. *)
Definition delete_matches (uid id : string) : handler :=
  try_catch message (
    snap <- get_match id ;;
    match snap with
    | None => reply 404 (message "Partido no encontrado")
    | Some d =>
        if negb (is_str uid (prop d "createdBy"))
        then reply 403 (message "No autorizado")
        else
          delete_match id ;;;
          reply 200 (VObj {[ "ok" := VBool true ]})
    end).

(** The requests that write to [matches], and the stores the service
    can reach from an empty collection by handling them one at a time.
    A created match gets an id the store does not hold yet. *)
Inductive request :=
  | Create (uid : string) (body : obj) (newId : string)
  | Join (uid id : string)
  | Leave (uid id : string)
  | Edit (uid id : string) (body : obj)
  | Delete (uid id : string).

Definition handle (r : request) (now : Z) : handler :=
  match r with
  | Create uid body newId => post_matches uid body now newId
  | Join uid id => post_matches_join uid id now
  | Leave uid id => post_matches_leave uid id now
  | Edit uid id body => put_matches uid id body now
  | Delete uid id => delete_matches uid id
  end.

Definition fresh (r : request) (s : store) : Prop :=
  match r with
  | Create _ _ newId => matches s !! newId = None
  | _ => True
  end.

Definition exec (r : request) (now : Z) (s : store) : store :=
  store_after (handle r now) s.

Inductive reachable : store -> Prop :=
  | reach_init (p : gmap string obj) :
      reachable {| profiles := p; matches := ∅ |}
  | reach_step (s : store) (r : request) (now : Z) :
      reachable s -> fresh r s -> reachable (exec r now s).
End Handlers.

End Band.

(** ** Middle revision ([functions/index.js], second service) *)

Module Middle.
Import JS Firestore.
#[local] Open Scope io_scope.

Section Handlers.
Context {RT : Runtime} {ST : Storage}.

(** [app.post('/matches', authMiddleware, ...)]: the request body
    itself is stored, with four of its fields set by the handler. *)
Definition post_matches (uid : string) (body : obj) (now : Z) (newId : string)
  : handler :=
  try_catch message (
    let payload := <["createdBy" := VStr uid]> body in
    let payload :=
      <["players" :=
          match prop payload "players" with
          | VArr (x :: l) => VArr (x :: l)
          | _ => VArr [VStr uid]
          end]> payload in
    let payload :=
      <["status" := js_or (prop payload "status") (VStr "open")]> payload in
    let data :=
      map_to_list (<["createdAt" := FServerTimestamp]> (FSet <$> payload)) in
    add_match now newId data ;;;
    doc <- get_match newId ;;
    reply 201 (VObj (with_id newId (default ∅ doc)))).

(** [req.query.level ? Number(req.query.level) : null], and then
    [level !== null && !Number.isNaN(level)]. *)
Definition level_filter (qLevel : option string) : option number :=
  match or_null qLevel with
  | Some s => if isNaN (StringToNumber s) then None
              else Some (StringToNumber s)
  | None => None
  end.

(** [typeof m.levelMax === 'number' ? m.levelMax >= level : true]. *)
Definition below_levelMax (level : number) (m : obj) : bool :=
  match prop m "levelMax" with
  | VNum x => num_ge x level
  | _ => true
  end.

(** The query that the listing sends to the store. *)
Definition listing_query (level : option number) (date : option string)
  : query :=
  {| q_eq := match date with Some d => [("date", d)] | None => [] end;
     q_le := match level with
             | Some n => Some ("levelMin", VNum n)
             | None => None
             end;
     q_order := Some "createdAt";
     q_limit := 50 |}.

(** [app.get('/matches', ...)] with [?level=&date=]. *)
Definition get_matches (qLevel qDate : option string) : handler :=
  try_catch message (
    let level := level_filter qLevel in
    let date := or_null qDate in
    snap <- run_query (listing_query level date) ;;
    let items := map (fun d => with_id d.1 d.2) snap in
    let items :=
      match level with
      | Some n => List.filter (below_levelMax n) items
      | None => items
      end in
    reply 200 (VArr (map VObj items))).

(** [typeof match.maxPlayers === 'number' ? match.maxPlayers : 4]. *)
Definition capacity (m : obj) : number :=
  match prop m "maxPlayers" with
  | VNum n => n
  | _ => Fin 4
  end.

(** [app.post('/matches/:id/join', authMiddleware, ...)]. *)
Definition post_matches_join (uid id : string) (now : Z) : handler :=
  try_catch message (
    matchDoc <- get_match id ;;
    match matchDoc with
    | None => reply 404 (message "Partido no encontrado")
    | Some m =>
        let players := array_or_empty (prop m "players") in
        let maxPlayers := capacity m in
        if includes players uid
        then reply 400 (message "Ya estás en el partido")
        else if num_ge (num_of_nat (length players)) maxPlayers
        then reply 400 (message "Partido lleno")
        else
          update_match now id [ ("players", FArrayUnion uid) ] ;;;
          reply 200 (message "Te uniste al partido")
    end).

Inductive request :=
  | Create (uid : string) (body : obj) (newId : string)
  | Join (uid id : string).

Definition handle (r : request) (now : Z) : handler :=
  match r with
  | Create uid body newId => post_matches uid body now newId
  | Join uid id => post_matches_join uid id now
  end.

Definition fresh (r : request) (s : store) : Prop :=
  match r with
  | Create _ _ newId => matches s !! newId = None
  | _ => True
  end.

Definition exec (r : request) (now : Z) (s : store) : store :=
  store_after (handle r now) s.

Inductive reachable : store -> Prop :=
  | reach_init (p : gmap string obj) :
      reachable {| profiles := p; matches := ∅ |}
  | reach_step (s : store) (r : request) (now : Z) :
      reachable s -> fresh r s -> reachable (exec r now s).
End Handlers.

End Middle.

(** ** Level-aware revision (third source file) *)

Module LevelAware.
Import JS Firestore.
#[local] Open Scope io_scope.

Section Handlers.
Context {RT : Runtime} {ST : Storage}.

(** [!myProfile || !myProfile.level], on the result of reading the
    caller's profile. *)
Definition no_level (myProfile : option obj) : bool :=
  match myProfile with
  | None => true
  | Some p => negb (truthy (prop p "level"))
  end.

(** [Number.isFinite(Number(x)) ? Number(x) : dflt]. *)
Definition finite_or (x : value) (dflt : number) : number :=
  if isFinite (ToNumber x) then ToNumber x else dflt.

(** [!mode || !['1v1', '2v2'].includes(mode)]. *)
Definition bad_mode (mode : value) : bool :=
  negb (truthy mode) || negb (is_str "1v1" mode || is_str "2v2" mode).

(** [app.post('/matches', authMiddleware, ...)]. *)
Definition post_matches (uid : string) (body : obj) (now : Z) (newId : string)
  : handler :=
  try_catch error (
    meSnap <- get_profile uid ;;
    if no_level meSnap
    then reply 400
           (error "Completá tu perfil (nivel) antes de crear partidos")
    else
      let myProfile := default ∅ meSnap in
      let mode := prop body "mode" in
      if bad_mode mode
      then reply 400
             (error ("mode debe ser " ++ dquote ++ "1v1" ++ dquote
                      ++ " o " ++ dquote ++ "2v2" ++ dquote))
      else
        let maxPlayers := if is_str "1v1" mode then Fin 2 else Fin 4 in
        let lvlMin :=
          finite_or (prop body "levelMin")
            (Math_max (Fin 1) (js_sub (prop myProfile "level") (VNum half))) in
        let lvlMax :=
          finite_or (prop body "levelMax")
            (Math_min (Fin 7)
               (ToNumber (js_add (prop myProfile "level") (VNum half)))) in
        if num_gt lvlMin lvlMax
        then reply 400 (error "levelMin no puede ser > levelMax")
        else
          let payload :=
            [ ("title",
                FSet (js_or (js_or (prop body "title") (prop body "location"))
                            (VStr "Partido")));
              ("date", FSet (js_or (prop body "date") VNull));
              ("time", FSet (js_or (prop body "time") VNull));
              ("location", FSet (js_or (prop body "location") VNull));
              ("zone",
                FSet (js_or (js_or (prop body "zone") (prop myProfile "zone"))
                            VNull));
              ("mode", FSet mode);
              ("maxPlayers", FSet (VNum maxPlayers));
              ("levelMin", FSet (VNum lvlMin));
              ("levelMax", FSet (VNum lvlMax));
              ("players", FSet (VArr [VStr uid]));
              ("createdBy", FSet (VStr uid));
              ("status", FSet (VStr "open"));
              ("createdAt", FServerTimestamp) ] in
          add_match now newId payload ;;;
          doc <- get_match newId ;;
          reply 201 (VObj (with_id newId (default ∅ doc)))).

(** The query that the listing sends to the store. *)
Definition listing_query (level : option number) (date zone : option string)
  : query :=
  {| q_eq := [("status", "open")]
             ++ match date with Some d => [("date", d)] | None => [] end
             ++ match zone with Some z => [("zone", z)] | None => [] end;
     q_le := match level with
             | Some n => Some ("levelMin", VNum n)
             | None => None
             end;
     q_order := Some "createdAt";
     q_limit := 50 |}.

(** [app.get('/matches', ...)] with [?level=&date=&zone=]. *)
Definition get_matches (qLevel qDate qZone : option string) : handler :=
  try_catch error (
    let level := Middle.level_filter qLevel in
    let date := or_null qDate in
    let zone := or_null qZone in
    snap <- run_query (listing_query level date zone) ;;
    let items := map (fun d => with_id d.1 d.2) snap in
    let items :=
      match level with
      | Some n => List.filter (Middle.below_levelMax n) items
      | None => items
      end in
    reply 200 (VArr (map VObj items))).

(** The level test of the join handler:
    [(typeof match.levelMin !== 'number' || level >= match.levelMin) &&
     (typeof match.levelMax !== 'number' || level <= match.levelMax)]. *)
Definition lvlOk (level : value) (m : obj) : bool :=
  match prop m "levelMin" with
  | VNum lo => num_ge (ToNumber level) lo
  | _ => true
  end
  && match prop m "levelMax" with
     | VNum hi => num_le (ToNumber level) hi
     | _ => true
     end.

(** [after.players?.length || 0], where [after.players] is the field
    that [arrayUnion] has just written, hence an array. *)
Definition length_or_0 (v : value) : number :=
  match v with
  | VArr l => num_of_nat (length l)
  | _ => Fin 0
  end.

(** [app.post('/matches/:id/join', authMiddleware, ...)]. *)
Definition post_matches_join (uid id : string) (now : Z) : handler :=
  try_catch message (
    profSnap <- get_profile uid ;;
    if no_level profSnap
    then reply 400 (message "Completá tu perfil (nivel) antes de unirte")
    else
      let myProfile := default ∅ profSnap in
      matchDoc <- get_match id ;;
      match matchDoc with
      | None => reply 404 (message "Partido no encontrado")
      | Some m =>
          let players := array_or_empty (prop m "players") in
          let maxPlayers := Middle.capacity m in
          if negb (is_str "open" (prop m "status"))
          then reply 400 (message "Partido cerrado")
          else if includes players uid
          then reply 400 (message "Ya estás en el partido")
          else if num_ge (num_of_nat (length players)) maxPlayers
          then reply 400 (message "Partido lleno")
          else if negb (lvlOk (prop myProfile "level") m)
          then reply 400 (message "Tu nivel no coincide con el requerido")
          else
            update_match now id [ ("players", FArrayUnion uid) ] ;;;
            updated <- get_match id ;;
            let after := default ∅ updated in
            (if num_ge (length_or_0 (prop after "players"))
                       (ToNumber (prop after "maxPlayers"))
             then update_match now id [ ("status", FSet (VStr "full")) ]
             else ret tt) ;;;
            reply 200 (message "Te uniste al partido")
      end).

(** The requests that write to [matches].  Profiles are written by
    other handlers; between two requests the [profiles] collection may
    change in any way. *)
Inductive request :=
  | Create (uid : string) (body : obj) (newId : string)
  | Join (uid id : string).

Definition handle (r : request) (now : Z) : handler :=
  match r with
  | Create uid body newId => post_matches uid body now newId
  | Join uid id => post_matches_join uid id now
  end.

Definition fresh (r : request) (s : store) : Prop :=
  match r with
  | Create _ _ newId => matches s !! newId = None
  | _ => True
  end.

Definition exec (r : request) (now : Z) (s : store) : store :=
  store_after (handle r now) s.

Inductive reachable : store -> Prop :=
  | reach_init (p : gmap string obj) :
      reachable {| profiles := p; matches := ∅ |}
  | reach_profiles (s : store) (p : gmap string obj) :
      reachable s -> reachable {| profiles := p; matches := matches s |}
  | reach_step (s : store) (r : request) (now : Z) :
      reachable s -> fresh r s -> reachable (exec r now s).
End Handlers.

End LevelAware.

(** ** What the properties are stated with *)

Module Props.
Import JS Firestore.


(** [a == b] on numbers. *)
Definition num_eqb (a b : number) : bool := num_le a b && num_le b a.

(** [status] is ["full"] when [players.length == maxPlayers] and ["open"]
    otherwise. *)
Definition status_derived (d : obj) : Prop :=
  exists ps cap,
    d !! "players" = Some (VArr ps)
    /\ d !! "maxPlayers" = Some (VNum cap)
    /\ d !! "status"
       = Some (VStr (if num_eqb (num_of_nat (length ps)) cap
                     then "full" else "open")).

(** The shape every match of the band and level-aware revisions has:
    an array of at most [n] players, [maxPlayers] equal to [n], and the
    status that goes with the count. *)
Definition shaped (n : nat) (d : obj) : Prop :=
  exists ps,
    d !! "players" = Some (VArr ps)
    /\ d !! "maxPlayers" = Some (VNum (num_of_nat n))
    /\ length ps <= n
    /\ d !! "status"
       = Some (VStr (if (length ps =? n)%nat then "full" else "open")).

Definition well_formed (d : obj) : Prop := exists n, shaped n d.

(** A property of every document of the [matches] collection. *)
Definition all_matches (P : obj -> Prop) (s : store) : Prop :=
  map_Forall (fun _ d => P d) (matches s).

(** Reading a field of a patch given as an object literal. *)
Fixpoint assoc (p : patch) (k : string) : option fieldop :=
  match p with
  | [] => None
  | (k', o) :: rest => if String.eqb k' k then Some o else assoc rest k
  end.

(** The first failing check of a list of checks, each paired with the
    response it fails with. *)
Fixpoint first_failure (checks : list (bool * (nat * string)))
  : option (nat * string) :=
  match checks with
  | [] => None
  | (ok, err) :: rest => if ok then first_failure rest else Some err
  end.

(** The preconditions of a join in the level-aware revision, in the
    order in which they decide the response: the caller's profile
    declares a level, the match exists, it is open, the caller is not a
    member yet, the player count has not reached the capacity, the
    caller's level is within the bounds. *)
Definition join_preconditions `{RT : Runtime} (s : store) (uid id : string)
  : list (bool * (nat * string)) :=
  let m := doc_at s id in
  let players := array_or_empty (prop m "players") in
  let level := prop (default ∅ (profiles s !! uid)) "level" in
  [ (negb (LevelAware.no_level (profiles s !! uid)),
      (400, "Completá tu perfil (nivel) antes de unirte"));
    (bool_decide (is_Some (matches s !! id)),
      (404, "Partido no encontrado"));
    (is_str "open" (prop m "status"),
      (400, "Partido cerrado"));
    (negb (includes players uid),
      (400, "Ya estás en el partido"));
    (negb (num_ge (num_of_nat (length players)) (Middle.capacity m)),
      (400, "Partido lleno"));
    (LevelAware.lvlOk level m,
      (400, "Tu nivel no coincide con el requerido")) ].



(** The fields an edit may write. *)
Definition editable : list string :=
  [ "title"; "date"; "time"; "location"; "zone";
    "levelMin"; "levelMax"; "levelMinRank"; "levelMaxRank"; "updatedAt" ].

(** The two revisions whose create handler fixes [players], [status]
    and [maxPlayers] itself. *)
Inductive revision :=
  | BandRevision
  | LevelAwareRevision.

Definition reachable_in `{RT : Runtime} (rev : revision) (s : store) : Prop :=
  match rev with
  | BandRevision => Band.reachable s
  | LevelAwareRevision => LevelAware.reachable s
  end.

End Props.

(** ** The routes around the match handlers *)

Module Platform.
Import JS Firestore.

(** Further parts of the platform taken as given: what the identity
    provider answers to [verifyIdToken] (the uid it decodes, or the
    message of the error it throws), the first [n] code units of a
    string, how [set(..., { merge: true })] combines a map value with
    what is stored, and how [res.json] prints a [FieldValue] sentinel. *)
Class Services := {
  verifyIdToken : string -> string + string;
  take_units : nat -> string -> string;
  merge_map : option value -> obj -> value;
  sentinel_json : value
}.

(** [h.slice(7)]. *)
Definition slice7 (h : string) : string :=
  String.substring 7 (String.length h - 7) h.

Definition set_profiles (s : store) (p : gmap string obj) : store :=
  {| profiles := p; matches := matches s |}.

(** A route whose handler has no [try]: when it throws, no response is
    sent. *)
Definition silent_handler : Type := world -> option response * world.

Definition uncaught (h : io response) : silent_handler :=
  fun w =>
    match h w with
    | (Done r, w') => (Some r, w')
    | (Thrown _, w') => (None, w')
    end.

(** [try { ... } catch (e) { res.status(400).json({ error: e.message }) }],
    the [catch] of the profile routes. *)
Definition try_catch_400 (h : io response) : handler :=
  fun w =>
    match h w with
    | (Done r, w') => (r, w')
    | (Thrown e, w') =>
        ({| code := 400; body := error (exn_message e) |}, w')
    end.

Section Profiles.
Context {SV : Services}.

(** One field of [set(data, { merge: true })]: a map is merged into the
    stored value, anything else replaces it. *)
Definition merge_field (now : Z) (old : option value) (op : fieldop)
  : value :=
  match op with
  | FSet (VObj m) => merge_map old m
  | _ => apply_fieldop now old op
  end.

Definition merge_patch (now : Z) (d : obj) (p : patch) : obj :=
  merge (fun old op =>
           match op with
           | Some o => Some (merge_field now old o)
           | None => old
           end)
        d (list_to_map p : gmap string fieldop).

(** [await db.collection('profiles').doc(uid).set(data, { merge: true })]:
    creates the profile when there is none. *)
Definition set_profile_merge (now : Z) (uid : string) (data : patch)
  : io unit :=
  fun w =>
    if forallb (fun kv => storable kv.2) data
    then (Done tt,
          {| db := set_profiles (db w)
                     (<[uid := merge_patch now
                                 (default ∅ (profiles (db w) !! uid)) data]>
                        (profiles (db w)));
             trace := trace w |})
    else (Thrown InvalidValue, w).

(** [res.json(data)] for an object literal that holds sentinels. *)
Definition json_of (data : patch) : obj :=
  list_to_map
    (map (fun kv => (kv.1, match kv.2 with
                           | FSet v => v
                           | _ => sentinel_json
                           end)) data).
End Profiles.

End Platform.

(** ** Band revision: the other routes *)

Module BandRoutes.
Import JS Firestore Platform.
#[local] Open Scope io_scope.

(** [map.set(k, v)] on a [Map] kept as its entries in insertion order. *)
Fixpoint map_set (k : string) (v : obj) (entries : list (string * obj))
  : list (string * obj) :=
  match entries with
  | [] => [(k, v)]
  | (k', v') :: rest =>
      if String.eqb k' k then (k, v) :: rest
      else (k', v') :: map_set k v rest
  end.

Section Routes.
Context {RT : Runtime} {ST : Storage} {SV : Services}.

(** [async function authMiddleware(req, res, next)], given the
    [Authorization] header and the handler that [next()] runs with
    [req.user.uid]. *)
Definition authMiddleware (authorization : option string)
    (next : string -> handler) : handler :=
  fun w =>
    let h := default "" authorization in
    if negb (String.prefix "Bearer " h)
    then ({| code := 401; body := message "No token" |}, w)
    else match verifyIdToken (slice7 h) with
         | inl uid => next uid w
         | inr detail =>
             ({| code := 401;
                 body := VObj {[ "message" := VStr "Token inválido";
                                 "detail" := VStr detail ]} |}, w)
         end.

(** [app.get('/me', authMiddleware, ...)]. *)
Definition get_me (uid : string) : silent_handler :=
  uncaught (
    snap <- get_profile uid ;;
    reply 200 (match snap with Some d => VObj d | None => VNull end)).

(** [Number(x) || 0]. *)
Definition number_or_0 (x : value) : number :=
  let n := ToNumber x in
  if truthy (VNum n) then n else Fin 0.

(** The object [safe] of [app.put('/profile', ...)], its [displayName]
    already trimmed. *)
Definition safe_profile (uid : string) (p : obj) (displayName : value)
  : patch :=
  let levelBand := js_or (prop p "levelBand") (VStr "8va") in
  [ ("uid", FSet (VStr uid));
    ("displayName", FSet displayName);
    ("levelBand", FSet levelBand);
    ("levelBandRank", FSet (Band.rankOf levelBand));
    ("position", FSet (js_or (prop p "position") (VStr "Drive")));
    ("styleGame", FSet (js_or (prop p "styleGame") (VStr "Ofensivo")));
    ("experienceYears", FSet (VNum (number_or_0 (prop p "experienceYears"))));
    ("age", FSet (if truthy (prop p "age")
                  then VNum (ToNumber (prop p "age")) else VNull));
    ("gender", FSet (js_or (prop p "gender") (VStr "Masculino")));
    ("city", FSet (js_or (prop p "city") (VStr "")));
    ("zone", FSet (js_or (prop p "zone") (VStr "")));
    ("updatedAt", FServerTimestamp);
    ("createdAt", FServerTimestamp) ].

(** [app.put('/profile', authMiddleware, ...)]. *)
Definition put_profile (uid : string) (p : obj) (now : Z) : silent_handler :=
  uncaught (
    displayName <- Band.trimmed (prop p "displayName") "" ;;
    let safe := safe_profile uid p displayName in
    set_profile_merge now uid safe ;;;
    reply 200 (VObj (json_of safe))).

(** [where('status', '==', 'open').limit(50)]. *)
Definition open_query : query :=
  {| q_eq := [("status", "open")]; q_le := None;
     q_order := None; q_limit := 50 |}.

(** [where('createdBy', '==', uid).limit(50)]. *)
Definition created_query (uid : string) : query :=
  {| q_eq := [("createdBy", uid)]; q_le := None;
     q_order := None; q_limit := 50 |}.

(** [where('players', 'array-contains', uid).limit(50).get()]: the
    documents whose [players] is an array holding [uid]. *)
Definition joined_by (uid : string) (d : string * obj) : bool :=
  includes (array_or_empty (prop d.2 "players")) uid.

Definition select_joined (uid : string) (m : gmap string obj)
  : list (string * obj) :=
  take 50 (fs_sort None (List.filter (joined_by uid) (map_to_list m))).

Definition run_joined (uid : string) : io (list (string * obj)) :=
  fun w => (Done (select_joined uid (matches (db w))), w).

(** [app.get('/matches/mine', authMiddleware, ...)]. *)
Definition get_matches_mine (uid : string) : handler :=
  try_catch message (
    createdSnap <- run_query (created_query uid) ;;
    joinedSnap <- run_joined uid ;;
    let entries :=
      foldl (fun acc d => map_set d.1 (with_id d.1 d.2) acc) []
            (createdSnap ++ joinedSnap) in
    items <- Band.sort_newest_first (map snd entries) ;;
    reply 200 (VArr (map VObj items))).

(** [app.get('/matches/open', ...)]. *)
Definition get_matches_open : handler :=
  try_catch message (
    snap <- run_query open_query ;;
    items <- Band.sort_newest_first (map (fun d => with_id d.1 d.2) snap) ;;
    reply 200 (VArr (map VObj items))).

(** [m.createdBy !== uid &&
     !(Array.isArray(m.players) && m.players.includes(uid))]. *)
Definition not_mine (uid : string) (m : obj) : bool :=
  negb (is_str uid (prop m "createdBy"))
  && negb (includes (array_or_empty (prop m "players")) uid).

(** [app.get('/matches/available', authMiddleware, ...)]. *)
Definition get_matches_available (uid : string) : handler :=
  try_catch message (
    snap <- run_query open_query ;;
    let items :=
      List.filter (not_mine uid) (map (fun d => with_id d.1 d.2) snap) in
    items <- Band.sort_newest_first items ;;
    reply 200 (VArr (map VObj items))).
End Routes.

End BandRoutes.

(** ** Level-aware revision: the other routes *)

Module LevelAwareRoutes.
Import JS Firestore Platform.
#[local] Open Scope io_scope.

Section Routes.
Context {RT : Runtime} {SV : Services}.

(** [async function authMiddleware(req, res, next)] of the middle and
    level-aware revisions. *)
Definition authMiddleware (authorization : option string)
    (next : string -> handler) : handler :=
  fun w =>
    let header := default "" authorization in
    let token := if String.prefix "Bearer " header
                 then slice7 header else "" in
    if String.eqb token ""
    then ({| code := 401; body := message "No token" |}, w)
    else match verifyIdToken token with
         | inl uid => next uid w
         | inr detail =>
             ({| code := 401;
                 body := VObj {[ "message" := VStr "Token inválido";
                                 "detail" := VStr detail ]} |}, w)
         end.

(** [!displayName || !String(displayName).trim()]. *)
Definition no_name (displayName : value) : bool :=
  negb (truthy displayName)
  || String.eqb (StringTrim (ToString displayName)) "".

(** [!Number.isFinite(lvlNum) || lvlNum < 1 || lvlNum > 7]. *)
Definition bad_level (lvlNum : number) : bool :=
  negb (isFinite lvlNum) || num_lt lvlNum (Fin 1) || num_gt lvlNum (Fin 7).

(** [x ? String(x).slice(0, 140) : null]. *)
Definition short_text (x : value) : value :=
  if truthy x then VStr (take_units 140 (ToString x)) else VNull.

(** The object [doc] of [app.post('/profiles/me', ...)]. *)
Definition profile_doc (uid : string) (body : obj) : patch :=
  let age := ToNumber (prop body "age") in
  let gender := prop body "gender" in
  [ ("uid", FSet (VStr uid));
    ("displayName",
      FSet (VStr (StringTrim (ToString (prop body "displayName")))));
    ("level", FSet (VNum (ToNumber (prop body "level"))));
    ("availability",
      FSet (match prop body "availability" with
            | VArr l => VArr (take 10 l)
            | _ => VNull
            end));
    ("experience", FSet (short_text (prop body "experience")));
    ("style", FSet (short_text (prop body "style")));
    ("age", FSet (if isFinite age then VNum age else VNull));
    ("gender",
      FSet (if is_str "masculino" gender || is_str "femenino" gender
            then gender else VNull));
    ("city", FSet (js_or (prop body "city") VNull));
    ("zone", FSet (js_or (prop body "zone") VNull));
    ("updatedAt", FServerTimestamp);
    ("createdAt", FServerTimestamp) ].

(** [app.post('/profiles/me', authMiddleware, ...)]. *)
Definition post_profiles_me (uid : string) (body : obj) (now : Z) : handler :=
  try_catch_400 (
    if no_name (prop body "displayName")
    then reply 400 (error "displayName es obligatorio")
    else if bad_level (ToNumber (prop body "level"))
    then reply 400 (error "level debe estar entre 1 y 7")
    else
      set_profile_merge now uid (profile_doc uid body) ;;;
      reply 200 (VObj {[ "ok" := VBool true ]})).

(** [app.get('/profiles/me', authMiddleware, ...)]. *)
Definition get_profiles_me (uid : string) : handler :=
  try_catch_400 (
    snap <- get_profile uid ;;
    reply 200 (match snap with Some d => VObj d | None => VNull end)).
End Routes.

End LevelAwareRoutes.

(** ** What the further properties are stated with *)

Module MoreProps.
Import JS Firestore.

(** The creator of a match is one of its players, and no player is
    listed twice. *)
Definition membership_sound (d : obj) : Prop :=
  exists c ps,
    d !! "createdBy" = Some (VStr c)
    /\ d !! "players" = Some (VArr ps)
    /\ VStr c ∈ ps
    /\ NoDup ps.

(** The bounds of a level-aware match: two numbers, the lower one not
    above the upper one, and a capacity of 2 for mode ["1v1"], of 4 for
    mode ["2v2"]. *)
Definition bounds_sound (d : obj) : Prop :=
  exists lo hi,
    d !! "levelMin" = Some (VNum lo)
    /\ d !! "levelMax" = Some (VNum hi)
    /\ num_gt lo hi = false
    /\ (d !! "mode" = Some (VStr "1v1")
          /\ d !! "maxPlayers" = Some (VNum (Fin 2))
        \/ d !! "mode" = Some (VStr "2v2")
          /\ d !! "maxPlayers" = Some (VNum (Fin 4))).

(** Newest first: an item is never older than one listed after it. *)
Definition newest_first (items : list obj) : Prop :=
  forall i j a b,
    i <= j -> items !! i = Some a -> items !! j = Some b ->
    (Band.sort_key b <= Band.sort_key a)%Z.

(** The same, read along the list: every item is at least as new as
    each of those after it. *)
Fixpoint descending (l : list obj) : Prop :=
  match l with
  | [] => True
  | x :: rest =>
      Forall (fun y => (Band.sort_key y <= Band.sort_key x)%Z) rest
      /\ descending rest
  end.

End MoreProps.

(** ** A sample runtime and storage engine, for the worked examples *)

Module Sample.
Import JS Firestore.

(** Decimal digits only; the empty string is [0], anything else [NaN]. *)
Fixpoint digits (s : string) (acc : Z) : option Z :=
  match s with
  | EmptyString => Some acc
  | String c rest =>
      let n := Ascii.nat_of_ascii c in
      if (48 <=? n)%nat && (n <=? 57)%nat
      then digits rest (10 * acc + Z.of_nat (n - 48))%Z
      else None
  end.

Definition parse (s : string) : number :=
  match digits s 0%Z with
  | Some z => num_of_Z z
  | None => NaN
  end.

Definition print (n : number) : string :=
  match n with
  | NaN => "NaN"
  | PInf => "Infinity"
  | NInf => "-Infinity"
  | Fin q => if Qeq_bool q (1 # 2) then "0.5" else pretty (Qnum q)
  end.

Definition inherited (k : string) : value :=
  if bool_decide (k ∈ ["constructor"; "toString"; "valueOf";
                        "hasOwnProperty"; "isPrototypeOf";
                        "propertyIsEnumerable"; "toLocaleString"])
  then VFun k else VUndef.

(** Sample strings carry no surrounding blanks, so trimming keeps
    them. *)
#[export] Instance runtime : Runtime := {
  StringToNumber := parse;
  NumberToString := print;
  ObjectToString := fun _ => "[object Object]";
  StringTrim := fun s => s;
  ProtoMember := inherited
}.

#[export] Instance storage : Storage := {
  fs_other_le := fun _ _ => false;
  fs_nan_le := true;
  fs_sort := fun _ l => l;
  fs_sort_perm := fun _ l => reflexivity l;
  fs_serves := fun _ => true
}.

Definition empty_store : store := {| profiles := ∅; matches := ∅ |}.

Definition str_array (l : list string) : value := VArr (VStr <$> l).

(** Level-aware revision: ana plays at level 4, bea at 4.5, and ana has
    posted a match for two. *)
Definition players_store : store :=
  {| profiles := {[ "ana" := {[ "level" := VNum (Fin 4) ]};
                    "bea" := {[ "level" := VNum (Fin (9 # 2)) ]} ]};
     matches := ∅ |}.

Definition level_created : store :=
  LevelAware.exec
    (LevelAware.Create "ana" {[ "mode" := VStr "1v1" ]} "m1") 0 players_store.


(** A match stored through the middle revision with [maxPlayers: true]. *)
Definition odd_capacity : store :=
  Middle.exec (Middle.Create "ana" {[ "maxPlayers" := VBool true ]} "m1")
              0 empty_store.



(** Band revision: ana posts a match with an empty body. *)
Definition band_created : store :=
  Band.exec (Band.Create "ana" ∅ "m1") 0 empty_store.



(** Middle revision: ana posts a match for two, bea joins it. *)
Definition middle_created : store :=
  Middle.exec (Middle.Create "ana" {[ "maxPlayers" := VNum (Fin 2) ]} "m1")
              0 empty_store.

Definition middle_joined : store :=
  Middle.exec (Middle.Join "bea" "m1") 1 middle_created.

(** A sample identity provider that knows one token, and a merge that
    lets a posted map replace the stored one. *)
#[export] Instance services : Platform.Services := {
  Platform.verifyIdToken := fun t =>
    if String.eqb t "token-ana" then inl "ana" else inr "bad token";
  Platform.take_units := fun n s => String.substring 0 n s;
  Platform.merge_map := fun _ m => VObj m;
  Platform.sentinel_json := VObj ∅
}.

(** Band revision: bea has joined ana's match. *)
Definition band_joined : store :=
  Band.exec (Band.Join "bea" "m1") 1 band_created.

(** Level-aware revision: bea has joined ana's match. *)
Definition level_joined : store :=
  LevelAware.exec (LevelAware.Join "bea" "m1") 1 level_created.

(** The body of a profile post. *)
Definition caro_body : obj :=
  {[ "displayName" := VStr "Caro"; "level" := VStr "5" ]}.

End Sample.

(** * Properties *)

Import JS Firestore Props.

#[local] Arguments forallb : simpl never.
#[local] Arguments num_of_nat : simpl never.
#[local] Arguments num_le : simpl never.
#[local] Arguments num_ge : simpl never.
#[local] Arguments num_add : simpl never.
#[local] Arguments Nat.leb : simpl never.
#[local] Arguments Nat.eqb : simpl never.
#[local] Arguments prop : simpl never.
#[local] Arguments num_sub : simpl never.
#[local] Arguments num_lt : simpl never.
#[local] Arguments num_gt : simpl never.
#[local] Arguments Math_max : simpl never.
#[local] Arguments Math_min : simpl never.

(** Unfolds the monad around a handler body. *)
Ltac run_handler :=
  unfold all_matches, store_after, answer, writes, try_catch, bind,
         get_match, get_profile, reply, ret, throw, start;
  simpl.

(** ** Numbers, patches and arrays *)

Lemma num_le_nat a b : num_le (num_of_nat a) (num_of_nat b) = (a <=? b)%nat.
Proof.
  unfold num_le, num_of_nat, Qle_bool. simpl. rewrite !Z.mul_1_r.
  destruct (Nat.leb_spec a b), (Z.leb_spec (Z.of_nat a) (Z.of_nat b));
    auto; lia.
Qed.

Lemma num_le_nat_succ a b :
  num_le (num_of_nat a) (num_add (num_of_nat b) (Fin 1)) = (a <=? S b)%nat.
Proof.
  unfold num_le, num_add, num_of_nat, Qle_bool. simpl. rewrite !Z.mul_1_r.
  destruct (Nat.leb_spec a (S b)),
           (Z.leb_spec (Z.of_nat a) (Z.of_nat b + 1)); auto; lia.
Qed.

Lemma num_eqb_nat a b : num_eqb (num_of_nat a) (num_of_nat b) = (a =? b)%nat.
Proof.
  unfold num_eqb. rewrite !num_le_nat.
  destruct (Nat.leb_spec a b), (Nat.leb_spec b a), (Nat.eqb_spec a b);
    simpl; auto; lia.
Qed.

Lemma lookup_list_to_map_assoc (p : patch) k :
  (list_to_map p : gmap string fieldop) !! k = assoc p k.
Proof.
  induction p as [|[k' o] p IH]; simpl; [apply lookup_empty|].
  rewrite lookup_insert.
  destruct (String.eqb_spec k' k); case_decide; congruence.
Qed.

Lemma lookup_apply_patch now (d : obj) p k :
  apply_patch now d p !! k
  = match assoc p k with
    | Some o => Some (apply_fieldop now (d !! k) o)
    | None => d !! k
    end.
Proof.
  unfold apply_patch. rewrite lookup_merge, lookup_list_to_map_assoc.
  destruct (d !! k), (assoc p k); done.
Qed.


Lemma is_str_true s v : is_str s v = true <-> v = VStr s.
Proof.
  destruct v; simpl; try (split; [discriminate | congruence]).
  rewrite String.eqb_eq. split; congruence.
Qed.

Lemma assoc_None (p : patch) k : k ∉ p.*1 -> assoc p k = None.
Proof.
  induction p as [|[k' o] p IH]; simpl; [done|].
  rewrite not_elem_of_cons. intros [Hne Hk].
  destruct (String.eqb_spec k' k); [congruence | by apply IH].
Qed.

Lemma prop_lookup (d : obj) k v : d !! k = Some v -> prop d k = v.
Proof. intros H. unfold prop. by rewrite H. Qed.

Lemma length_remove_lt (l : list value) s :
  includes l s = true ->
  length (List.filter (fun v => negb (is_str s v)) l) < length l.
Proof.
  induction l as [|x l IH]; simpl; [discriminate|].
  intros H. destruct (is_str s x) eqn:Hx; simpl.
  - pose proof (List.filter_length_le (fun v => negb (is_str s v)) l). lia.
  - apply IH in H. lia.
Qed.

Lemma doc_at_lookup s id :
  bool_decide (is_Some (matches s !! id)) = true ->
  matches s !! id = Some (doc_at s id).
Proof.
  intros H. apply bool_decide_eq_true in H as [d Hd].
  unfold doc_at. by rewrite Hd.
Qed.

(** Settles a closed equation by evaluation. *)
Ltac evaluate := vm_compute; reflexivity.

(** Looks up a match of a concrete store. *)
Ltac stored := apply doc_at_lookup; evaluate.

Lemma all_matches_insert P (m : gmap string obj) id d :
  map_Forall (fun _ d => P d) m -> P d ->
  map_Forall (fun _ d => P d) (<[id := d]> m).
Proof. intros. by apply map_Forall_insert_2. Qed.

(** ** The shape of the stored matches is preserved *)

Section Invariants.
Context {RT : Runtime}.

Lemma band_capacity_4 (d : obj) :
  d !! "maxPlayers" = Some (VNum (Fin 4)) -> Band.capacity d = Fin 4.
Proof. intros H. unfold Band.capacity, prop. by rewrite H. Qed.

Lemma band_create_shaped uid p newId now s :
  all_matches (shaped 4) s ->
  all_matches (shaped 4) (Band.exec (Band.Create uid p newId) now s).
Proof.
  intros Hall.
  unfold Band.exec, Band.handle, Band.post_matches. run_handler.
  unfold Band.trimmed.
  destruct (js_or (prop p "title") (VStr "Partido")); simpl; try done.
  unfold add_match; simpl.
  destruct (forallb _ _) eqn:Hs; simpl; [|done].
  apply all_matches_insert; [done|].
  exists [VStr uid].
  split_and!; try (rewrite lookup_apply_patch; reflexivity).
  simpl; lia.
Qed.

Lemma band_join_shaped uid id now s :
  all_matches (shaped 4) s ->
  all_matches (shaped 4) (Band.exec (Band.Join uid id) now s).
Proof.
  intros Hall.
  unfold Band.exec, Band.handle, Band.post_matches_join. run_handler.
  destruct (matches s !! id) as [d|] eqn:Hd; simpl; [|done].
  destruct (Hall _ _ Hd) as (ps & Hps & Hmax & Hlen & Hst).
  rewrite (band_capacity_4 d Hmax), (prop_lookup _ _ _ Hps). simpl.
  destruct (is_str uid (prop d "createdBy")); simpl; [done|].
  destruct (includes ps uid) eqn:Hin; simpl; [done|].
  change (Fin 4) with (num_of_nat 4).
  unfold num_ge. rewrite num_le_nat, num_le_nat_succ.
  destruct (4 <=? length ps)%nat eqn:Hfull; simpl; [done|].
  apply Nat.leb_gt in Hfull.
  unfold update_match; simpl. rewrite Hd. simpl.
  apply all_matches_insert; [done|].
  exists (ps ++ [VStr uid])%list.
  rewrite !lookup_apply_patch. simpl.
  rewrite Hps. simpl. rewrite Hin. rewrite length_app. simpl.
  split_and!; [done|done|lia|].
  replace (length ps + 1) with (S (length ps)) by lia.
  do 2 f_equal.
  destruct (Nat.leb_spec 4 (S (length ps))),
           (Nat.eqb_spec (S (length ps)) 4); auto; lia.
Qed.

Lemma band_leave_shaped uid id now s :
  all_matches (shaped 4) s ->
  all_matches (shaped 4) (Band.exec (Band.Leave uid id) now s).
Proof.
  intros Hall.
  unfold Band.exec, Band.handle, Band.post_matches_leave. run_handler.
  destruct (matches s !! id) as [d|] eqn:Hd; simpl; [|done].
  destruct (Hall _ _ Hd) as (ps & Hps & Hmax & Hlen & Hst).
  rewrite (prop_lookup _ _ _ Hps). simpl.
  destruct (includes ps uid) eqn:Hin; simpl; [|done].
  destruct (is_str uid (prop d "createdBy")); simpl; [done|].
  unfold update_match; simpl. rewrite Hd. simpl.
  apply all_matches_insert; [done|].
  pose proof (length_remove_lt ps uid Hin) as Hlt.
  eexists. rewrite !lookup_apply_patch. simpl. rewrite Hps. simpl.
  split_and!; [done|done|lia|].
  do 2 f_equal.
  destruct (Nat.eqb_spec
              (length (List.filter (fun v => negb (is_str uid v)) ps)) 4);
    auto; lia.
Qed.

Lemma band_edit_shaped uid id p now s :
  all_matches (shaped 4) s ->
  all_matches (shaped 4) (Band.exec (Band.Edit uid id p) now s).
Proof.
  intros Hall.
  unfold Band.exec, Band.handle, Band.put_matches. run_handler.
  destruct (matches s !! id) as [d|] eqn:Hd; simpl; [|done].
  destruct (negb (is_str uid (prop d "createdBy"))); simpl; [done|].
  unfold update_match; simpl.
  destruct (forallb _ _); simpl; [|done].
  rewrite Hd. simpl.
  apply all_matches_insert; [done|].
  destruct (Hall _ _ Hd) as (ps & Hps & Hmax & Hlen & Hst).
  exists ps. rewrite !lookup_apply_patch. simpl. done.
Qed.

Lemma band_delete_shaped uid id now s :
  all_matches (shaped 4) s ->
  all_matches (shaped 4) (Band.exec (Band.Delete uid id) now s).
Proof.
  intros Hall.
  unfold Band.exec, Band.handle, Band.delete_matches. run_handler.
  destruct (matches s !! id) as [d|] eqn:Hd; simpl; [|done].
  destruct (negb (is_str uid (prop d "createdBy"))); simpl; [done|].
  by apply map_Forall_delete.
Qed.

Lemma band_reachable_shaped s :
  Band.reachable s -> all_matches (shaped 4) s.
Proof.
  induction 1 as [p | s r now Hr IH Hfresh].
  - apply map_Forall_empty.
  - destruct r.
    + by apply band_create_shaped.
    + by apply band_join_shaped.
    + by apply band_leave_shaped.
    + by apply band_edit_shaped.
    + by apply band_delete_shaped.
Qed.

Lemma level_create_shaped uid p newId now s :
  all_matches well_formed s ->
  all_matches well_formed
    (LevelAware.exec (LevelAware.Create uid p newId) now s).
Proof.
  intros Hall.
  unfold LevelAware.exec, LevelAware.handle, LevelAware.post_matches.
  run_handler.
  destruct (LevelAware.no_level _); simpl; [done|].
  destruct (LevelAware.bad_mode _); simpl; [done|].
  destruct (num_gt _ _); simpl; [done|].
  unfold add_match; simpl.
  destruct (forallb _ _); simpl; [|done].
  apply all_matches_insert; [done|].
  destruct (is_str "1v1" (prop p "mode")) eqn:Hmode.
  - exists 2, [VStr uid]. rewrite !lookup_apply_patch. simpl.
    split_and!; try done. lia.
  - exists 4, [VStr uid]. rewrite !lookup_apply_patch. simpl.
    split_and!; try done. lia.
Qed.

Lemma level_join_shaped uid id now s :
  all_matches well_formed s ->
  all_matches well_formed (LevelAware.exec (LevelAware.Join uid id) now s).
Proof.
  intros Hall.
  unfold LevelAware.exec, LevelAware.handle, LevelAware.post_matches_join.
  run_handler.
  destruct (LevelAware.no_level _); simpl; [done|].
  destruct (matches s !! id) as [d|] eqn:Hd; simpl; [|done].
  destruct (Hall _ _ Hd) as (n & ps & Hps & Hmax & Hlen & Hst).
  unfold Middle.capacity.
  rewrite (prop_lookup _ _ _ Hps), (prop_lookup _ _ _ Hmax),
          (prop_lookup _ _ _ Hst).
  simpl.
  destruct (Nat.eqb_spec (length ps) n) as [Heq|Hne]; simpl; [done|].
  destruct (includes ps uid) eqn:Hin; simpl; [done|].
  unfold num_ge at 1. rewrite num_le_nat.
  destruct (n <=? length ps)%nat; simpl; [done|].
  destruct (negb (LevelAware.lvlOk _ _)); simpl; [done|].
  unfold update_match at 1; simpl. rewrite Hd. simpl.
  rewrite lookup_insert_eq. simpl.
  set (d' := apply_patch now d [("players", FArrayUnion uid)]).
  assert (Hps' : d' !! "players" = Some (VArr (ps ++ [VStr uid]))).
  { unfold d'. rewrite lookup_apply_patch. simpl. by rewrite Hps, Hin. }
  assert (Hmax' : d' !! "maxPlayers" = Some (VNum (num_of_nat n))).
  { unfold d'. by rewrite lookup_apply_patch. }
  assert (Hst' : d' !! "status" = Some (VStr "open")).
  { unfold d'. by rewrite lookup_apply_patch. }
  rewrite (prop_lookup _ _ _ Hps'), (prop_lookup _ _ _ Hmax'). simpl.
  unfold num_ge. rewrite num_le_nat, length_app. simpl.
  destruct (Nat.leb_spec n (length ps + 1)) as [Hfull|Hroom]; simpl.
  - unfold update_match; simpl. rewrite lookup_insert_eq. simpl.
    rewrite insert_insert_eq.
    apply all_matches_insert; [done|].
    exists n, (ps ++ [VStr uid])%list. rewrite !lookup_apply_patch. simpl.
    rewrite Hps', Hmax', length_app. simpl.
    split_and!; [done|done|lia|].
    destruct (Nat.eqb_spec (length ps + 1) n); [done|lia].
  - apply all_matches_insert; [done|].
    exists n, (ps ++ [VStr uid])%list.
    rewrite Hps', Hmax', Hst', length_app. simpl.
    split_and!; [done|done|lia|].
    destruct (Nat.eqb_spec (length ps + 1) n); [lia|done].
Qed.

Lemma level_reachable_shaped s :
  LevelAware.reachable s -> all_matches well_formed s.
Proof.
  induction 1 as [p | s p Hr IH | s r now Hr IH Hfresh].
  - apply map_Forall_empty.
  - exact IH.
  - destruct r.
    + by apply level_create_shaped.
    + by apply level_join_shaped.
Qed.

Lemma reachable_well_formed rev s :
  reachable_in rev s -> all_matches well_formed s.
Proof.
  destruct rev; simpl; intros Hr.
  - intros id d Hd. exists 4. by apply (band_reachable_shaped s Hr id).
  - by apply level_reachable_shaped.
Qed.


Lemma well_formed_status d : well_formed d -> status_derived d.
Proof.
  intros (n & ps & Hps & Hmax & _ & Hst).
  exists ps, (num_of_nat n). split_and!; [done|done|].
  by rewrite num_eqb_nat.
Qed.
End Invariants.

(** ** Capacity and status of reachable matches *)

Section Capacity.
Context {RT : Runtime}.


(** C2 (as amended).  In the band revision and in the level-aware
    revision, every match of every reachable store has status ["full"]
    exactly when its player count equals [maxPlayers], and ["open"]
    otherwise. *)
Theorem status_follows_count rev s id d :
  reachable_in rev s -> matches s !! id = Some d -> status_derived d.
Proof.
  intros Hr Hd.
  apply well_formed_status. by apply (reachable_well_formed rev s Hr id).
Qed.
End Capacity.

Lemma band_created_reachable :
  Band.reachable (RT := Sample.runtime) Sample.band_created.
Proof.
  unfold Sample.band_created. apply Band.reach_step.
  - apply Band.reach_init.
  - reflexivity.
Qed.


Lemma status_follows_count_witness :
  status_derived (doc_at Sample.band_created "m1").
Proof.
  apply (status_follows_count (RT := Sample.runtime)
           BandRevision Sample.band_created "m1").
  - exact band_created_reachable.
  - stored.
Defined.


(** C2, counterexample.  In the middle revision, after bea joins ana's
    match for two, the match has two players and its status is still
    ["open"]. *)
Lemma status_not_rederived_in_middle_revision :
  Middle.reachable Sample.middle_joined
  /\ exists d, matches Sample.middle_joined !! "m1" = Some d
              /\ d !! "players" = Some (Sample.str_array ["ana"; "bea"])
              /\ d !! "maxPlayers" = Some (VNum (Fin 2))
              /\ d !! "status" = Some (VStr "open")
              /\ ~ status_derived d.
Proof.
  split.
  - apply Middle.reach_step; [|exact I].
    apply Middle.reach_step; [apply Middle.reach_init | reflexivity].
  - exists (doc_at Sample.middle_joined "m1").
    split; [stored|]. split; [evaluate|]. split; [evaluate|].
    split; [evaluate|].
    intros (ps & cap & Hps & Hcap & Hst).
    vm_compute in Hps. vm_compute in Hcap.
    injection Hps as <-. injection Hcap as <-.
    vm_compute in Hst. discriminate.
Qed.

(** ** Join in the level-aware revision *)

Section Join.
Context {RT : Runtime}.

(** C3 (as amended).  A join in the level-aware revision answers with
    the first failing precondition in the order: profile level (400),
    match existence (404), status open, not yet a member, capacity, level
    within bounds (400 each); a failing precondition leaves the store
    untouched, and when none fails the answer is 200. *)
Theorem join_precondition_order s uid id now :
  let h := LevelAware.post_matches_join uid id now in
  match first_failure (join_preconditions s uid id) with
  | Some (c, msg) =>
      answer h s = {| code := c; body := message msg |}
      /\ store_after h s = s /\ writes h s = []
  | None =>
      answer h s = {| code := 200; body := message "Te uniste al partido" |}
  end.
Proof.
  unfold join_preconditions, doc_at, LevelAware.post_matches_join.
  run_handler.
  destruct (LevelAware.no_level _); simpl; [by destruct s|].
  destruct (matches s !! id) as [d|] eqn:Hd; simpl; [|by destruct s].
  destruct (is_str "open" _); simpl; [|by destruct s].
  destruct (includes _ uid); simpl; [by destruct s|].
  destruct (num_ge _ (Middle.capacity d)); simpl; [by destruct s|].
  destruct (LevelAware.lvlOk _ d); simpl; [|by destruct s].
  unfold update_match at 1; simpl. rewrite Hd. simpl.
  rewrite lookup_insert_eq. simpl.
  destruct (num_ge _ _); simpl; [|done].
  unfold update_match; simpl. by rewrite lookup_insert_eq.
Qed.
End Join.

(** C3, counterexample.  With no profile for the caller and no match of
    the given id, the level-aware join answers 400 for the missing level,
    not 404. *)
Lemma join_checks_profile_before_existence :
  profiles Sample.empty_store !! "ana" = None
  /\ matches Sample.empty_store !! "m1" = None
  /\ answer (LevelAware.post_matches_join (RT := Sample.runtime) "ana" "m1" 0)
            Sample.empty_store
     = {| code := 400;
          body := message "Completá tu perfil (nivel) antes de unirte" |}.
Proof. split_and!; reflexivity. Qed.

(** ** What a successful join writes *)

Section JoinWrites.
Context {RT : Runtime}.

(** C4 (as amended).  A successful join of the band revision issues one
    update, which adds the joiner to [players] and sets [status] from the
    new count against the capacity.  A successful join of the level-aware
    revision issues an update of [players] alone and then, the record
    read again, a second update setting [status] to ["full"] when the
    count has reached [maxPlayers], and no second update otherwise.  A
    successful join of the middle revision issues the update of
    [players] alone. *)
Theorem join_writes s uid id now :
  (code (answer (Band.post_matches_join uid id now) s) = 200 ->
   exists d st,
     matches s !! id = Some d
     /\ st = (if num_ge (num_add (num_of_nat
                          (length (array_or_empty (prop d "players"))))
                          (Fin 1))
                        (Band.capacity d)
              then "full" else "open")
     /\ writes (Band.post_matches_join uid id now) s
        = [ WUpdate id [ ("players", FArrayUnion uid);
                         ("status", FSet (VStr st));
                         ("updatedAt", FServerTimestamp) ] ]
     /\ exists d',
          matches (store_after (Band.post_matches_join uid id now) s) !! id
          = Some d'
          /\ d' !! "players"
             = Some (VArr (array_or_empty (prop d "players") ++ [VStr uid]))
          /\ d' !! "status" = Some (VStr st))
  /\ (code (answer (LevelAware.post_matches_join uid id now) s) = 200 ->
      exists d,
        matches s !! id = Some d
        /\ writes (LevelAware.post_matches_join uid id now) s
           = WUpdate id [ ("players", FArrayUnion uid) ]
             :: (if num_ge (num_of_nat
                      (length (array_or_empty (prop d "players") ++ [VStr uid])))
                      (ToNumber (prop d "maxPlayers"))
                 then [ WUpdate id [ ("status", FSet (VStr "full")) ] ]
                 else []))
  /\ (code (answer (Middle.post_matches_join uid id now) s) = 200 ->
      writes (Middle.post_matches_join uid id now) s
      = [ WUpdate id [ ("players", FArrayUnion uid) ] ]).
Proof.
  split_and!.
  - unfold Band.post_matches_join. run_handler.
    destruct (matches s !! id) as [d|] eqn:Hd; simpl; [|discriminate].
    destruct (is_str uid _); simpl; [discriminate|].
    destruct (includes _ uid) eqn:Hin; simpl; [discriminate|].
    destruct (num_ge _ (Band.capacity d)); simpl; [discriminate|].
    unfold update_match; simpl. rewrite Hd. simpl. intros _.
    exists d. eexists. split_and!; [done|reflexivity|done|].
    eexists. rewrite lookup_insert_eq. split; [reflexivity|].
    rewrite !lookup_apply_patch. simpl. split; [|done].
    unfold prop in *. destruct (d !! "players") as [[]|]; simpl in *;
      try done.
    by rewrite Hin.
  - unfold LevelAware.post_matches_join. run_handler.
    destruct (LevelAware.no_level _); simpl; [discriminate|].
    destruct (matches s !! id) as [d|] eqn:Hd; simpl; [|discriminate].
    destruct (negb (is_str "open" _)); simpl; [discriminate|].
    destruct (includes _ uid) eqn:Hin; simpl; [discriminate|].
    destruct (num_ge _ (Middle.capacity d)); simpl; [discriminate|].
    destruct (negb (LevelAware.lvlOk _ d)); simpl; [discriminate|].
    assert (Hps : prop (apply_patch now d [("players", FArrayUnion uid)])
                       "players"
                  = VArr (array_or_empty (prop d "players") ++ [VStr uid])).
    { unfold prop. rewrite lookup_apply_patch. simpl.
      unfold prop in Hin. destruct (d !! "players") as [[]|]; simpl in *;
        try done.
      by rewrite Hin. }
    assert (Hmax : prop (apply_patch now d [("players", FArrayUnion uid)])
                        "maxPlayers"
                   = prop d "maxPlayers").
    { unfold prop. by rewrite lookup_apply_patch. }
    unfold update_match; simpl. rewrite !Hd. simpl.
    rewrite !lookup_insert_eq. simpl. rewrite !Hps, !Hmax. simpl.
    intros _. exists d. split; [done|].
    destruct (num_ge _ _); simpl; [|done].
    by rewrite lookup_insert_eq.
  - unfold Middle.post_matches_join. run_handler.
    destruct (matches s !! id) as [d|] eqn:Hd; simpl; [|discriminate].
    destruct (includes _ uid); simpl; [discriminate|].
    destruct (num_ge _ (Middle.capacity d)); simpl; [discriminate|].
    unfold update_match; simpl. by rewrite Hd.
Qed.
End JoinWrites.

(** In the band revision bea's join of ana's match is one update. *)
Lemma join_writes_witness :
  exists d st,
    matches Sample.band_created !! "m1" = Some d
    /\ writes (Band.post_matches_join (RT := Sample.runtime) "bea" "m1" 1)
              Sample.band_created
       = [ WUpdate "m1" [ ("players", FArrayUnion "bea");
                          ("status", FSet (VStr st));
                          ("updatedAt", FServerTimestamp) ] ].
Proof.
  assert (Hok : code (answer (Band.post_matches_join (RT := Sample.runtime)
                                 "bea" "m1" 1) Sample.band_created) = 200)
    by (vm_compute; reflexivity).
  destruct (proj1 (join_writes (RT := Sample.runtime)
                     Sample.band_created "bea" "m1" 1) Hok)
    as (d & st & Hd & _ & Hw & _).
  exists d, st. exact (conj Hd Hw).
Defined.

(** C4, counterexample.  In the level-aware revision bea's join of ana's
    match for two succeeds with two updates; after the first the stored
    match has two players, its capacity, and status ["open"]. *)
Lemma level_aware_join_writes_twice :
  let h := LevelAware.post_matches_join (RT := Sample.runtime) "bea" "m1" 1 in
  let d := doc_at Sample.level_created "m1" in
  let between := apply_patch 1 d [ ("players", FArrayUnion "bea") ] in
  code (answer h Sample.level_created) = 200
  /\ writes h Sample.level_created
     = [ WUpdate "m1" [ ("players", FArrayUnion "bea") ];
         WUpdate "m1" [ ("status", FSet (VStr "full")) ] ]
  /\ between !! "players" = Some (Sample.str_array ["ana"; "bea"])
  /\ between !! "maxPlayers" = Some (VNum (Fin 2))
  /\ between !! "status" = Some (VStr "open").
Proof. split_and!; evaluate. Qed.

(** ** Match creation *)

Section Creation.
Context {RT : Runtime}.

End Creation.



(** ** Level bounds of a new match *)

Section Bounds.
Context {RT : Runtime}.

Lemma bad_mode_false (mode : value) :
  LevelAware.bad_mode mode = false <-> mode = VStr "1v1" \/ mode = VStr "2v2".
Proof.
  unfold LevelAware.bad_mode.
  rewrite orb_false_iff, !negb_false_iff, orb_true_iff, !is_str_true.
  split; [tauto|]. intros H. split; [|done]. by destruct H as [-> | ->].
Qed.

End Bounds.


(** ** Listing *)

Section Listing.
Context {RT : Runtime} {ST : Storage}.

Lemma select_length q (m : gmap string obj) :
  length (select q m) <= q_limit q.
Proof. unfold select. rewrite length_take. lia. Qed.

Lemma select_sound q (m : gmap string obj) x :
  x ∈ select q m -> satisfies q x = true /\ m !! x.1 = Some x.2.
Proof.
  unfold select. intros Hx. apply subseteq_take in Hx.
  assert (Hin : In x (List.filter (satisfies q) (map_to_list m))).
  { apply list_elem_of_In.
    destruct (q_order q); rewrite fs_sort_perm in Hx; [|done].
    apply list_elem_of_In, filter_In in Hx as [Hx _].
    by apply list_elem_of_In. }
  apply filter_In in Hin as [Hin Hsat]. split; [done|].
  apply list_elem_of_In in Hin. destruct x as [i d].
  by apply elem_of_map_to_list.
Qed.

Lemma prop_with_id id (d : obj) k : k <> "id" -> prop (with_id id d) k = prop d k.
Proof.
  intros Hk. unfold prop, with_id. rewrite lookup_union.
  rewrite lookup_singleton_ne by done. by destruct (d !! k).
Qed.

Lemma elem_of_List_filter {A} (f : A -> bool) (l : list A) x :
  x ∈ List.filter f l <-> x ∈ l /\ f x = true.
Proof. rewrite !list_elem_of_In. apply filter_In. Qed.


Lemma satisfies_eq q k v x :
  (k, v) ∈ q_eq q -> satisfies q x = true -> prop x.2 k = VStr v.
Proof.
  unfold satisfies. rewrite andb_true_iff. intros Hin [H _].
  rewrite forallb_forall in H.
  apply list_elem_of_In, H in Hin. simpl in Hin.
  destruct (prop x.2 k); simpl in Hin; try discriminate.
  apply String.eqb_eq in Hin. by subst.
Qed.


Lemma insert_desc_perm x l : Band.insert_desc x l ≡ₚ x :: l.
Proof.
  induction l as [|y l IH]; simpl; [done|].
  destruct (_ <=? _)%Z; [done|]. rewrite IH. apply Permutation_swap.
Qed.

Lemma sort_desc_perm l : foldr Band.insert_desc [] l ≡ₚ l.
Proof.
  induction l as [|x l IH]; simpl; [done|].
  by rewrite insert_desc_perm, IH.
Qed.

End Listing.


(** ** Leaving and editing in the band revision *)

(** C8.  A leave on an existing match: a member who is not the creator
    gets 200, is removed from [players], every other player staying in
    place, and [status] becomes ["open"]; the creator gets 400 and
    nothing is written; a caller who is not a member gets 400 and nothing
    is written. *)
Theorem leave_contract s uid id now d :
  matches s !! id = Some d ->
  let h := Band.post_matches_leave uid id now in
  let players := array_or_empty (prop d "players") in
  let remaining := List.filter (fun v => negb (is_str uid v)) players in
  (includes players uid = true ->
   is_str uid (prop d "createdBy") = false ->
   answer h s = {| code := 200; body := message "Saliste del partido" |}
   /\ (forall v, v ∈ remaining <-> v ∈ players /\ v <> VStr uid)
   /\ exists d',
        matches (store_after h s) !! id = Some d'
        /\ d' !! "players" = Some (VArr remaining)
        /\ d' !! "status" = Some (VStr "open")
        /\ forall k, k ∉ ["players"; "status"; "updatedAt"] ->
                     d' !! k = d !! k)
  /\ (is_str uid (prop d "createdBy") = true ->
      code (answer h s) = 400 /\ store_after h s = s /\ writes h s = [])
  /\ (includes players uid = false ->
      answer h s = {| code := 400; body := message "No estabas en el partido" |}
      /\ store_after h s = s /\ writes h s = []).
Proof.
  intros Hd h players remaining. unfold h, Band.post_matches_leave.
  run_handler. rewrite Hd. simpl. fold players.
  split_and!.
  - intros Hin Hcreator. rewrite Hin, Hcreator. simpl.
    unfold update_match; simpl. rewrite Hd. simpl.
    split; [done|]. split.
    + intros v. unfold remaining. rewrite !list_elem_of_In, filter_In.
      rewrite negb_true_iff, <- not_true_iff_false, is_str_true. done.
    + eexists. rewrite lookup_insert_eq. split; [reflexivity|].
      rewrite !lookup_apply_patch. simpl. split_and!; [|done|].
      * unfold players, prop in *.
        destruct (d !! "players") as [[]|]; simpl in *; done.
      * intros k Hk. rewrite lookup_apply_patch.
        by rewrite assoc_None.
  - intros Hcreator. rewrite Hcreator.
    destruct (includes players uid); simpl; by destruct s.
  - intros Hin. rewrite Hin. simpl. by destruct s.
Qed.

(** In the band revision bea, who joined ana's match, leaves it. *)
Lemma leave_contract_witness :
  let s := Band.exec (RT := Sample.runtime) (Band.Join "bea" "m1") 1
             Sample.band_created in
  answer (Band.post_matches_leave "bea" "m1" 2) s
  = {| code := 200; body := message "Saliste del partido" |}.
Proof.
  intros s.
  assert (Hd : matches s !! "m1" = Some (doc_at s "m1")) by stored.
  apply (proj1 (leave_contract s "bea" "m1" 2 _ Hd));
    vm_compute; reflexivity.
Defined.

Section Edit.
Context {RT : Runtime}.

(** C9.  An edit that succeeds changes no field of the match outside
    [title], [date], [time], [location], [zone], [levelMin], [levelMax],
    [levelMinRank], [levelMaxRank] and [updatedAt]: in particular
    [players], [status], [maxPlayers], [mode], [createdBy] and
    [createdAt] are as before, whatever the body holds; and no other
    match changes. *)
Theorem edit_frame s uid id (p : obj) now :
  let h := Band.put_matches uid id p now in
  code (answer h s) = 200 ->
  exists d d',
    matches s !! id = Some d
    /\ matches (store_after h s) !! id = Some d'
    /\ (forall k, k ∉ editable -> d' !! k = d !! k)
    /\ Forall (fun k => d' !! k = d !! k)
          [ "players"; "status"; "maxPlayers"; "mode";
            "createdBy"; "createdAt" ]
    /\ forall id', id' <> id ->
          matches (store_after h s) !! id' = matches s !! id'.
Proof.
  intros h. unfold h, Band.put_matches. run_handler.
  destruct (matches s !! id) as [d|] eqn:Hd; simpl; [|discriminate].
  destruct (negb (is_str uid _)); simpl; [discriminate|].
  unfold update_match; simpl.
  destruct (forallb _ _); simpl; [|discriminate].
  rewrite Hd. simpl. intros _.
  exists d. eexists. split; [done|].
  rewrite lookup_insert_eq. split; [reflexivity|].
  split_and!.
  - intros k Hk. rewrite lookup_apply_patch. by rewrite assoc_None.
  - repeat constructor; by rewrite lookup_apply_patch.
  - intros id' Hne. by rewrite lookup_insert_ne.
Qed.
End Edit.

(** Ana edits her match with a body that also names players, a status
    and a capacity: only the title changes. *)
Lemma edit_frame_witness :
  let body := {[ "title" := VStr "Torneo";
                 "players" := VArr [];
                 "status" := VStr "full";
                 "maxPlayers" := VNum (Fin 9) ]} in
  let h := Band.put_matches (RT := Sample.runtime) "ana" "m1" body 3 in
  exists d d',
    matches Sample.band_created !! "m1" = Some d
    /\ matches (store_after h Sample.band_created) !! "m1" = Some d'
    /\ Forall (fun k => d' !! k = d !! k)
          [ "players"; "status"; "maxPlayers"; "mode";
            "createdBy"; "createdAt" ].
Proof.
  intros body h.
  assert (Hok : code (answer h Sample.band_created) = 200)
    by (vm_compute; reflexivity).
  destruct (edit_frame (RT := Sample.runtime)
              Sample.band_created "ana" "m1" body 3 Hok)
    as (d & d' & Hd & Hd' & _ & Hsame & _).
  exists d, d'. exact (conj Hd (conj Hd' Hsame)).
Defined.

(** ** The capacity of a match without a numeric [maxPlayers] *)

Section Capacity4.
Context {RT : Runtime}.

(** C10 (as amended).  A join on a stored match [d] the caller is not a
    member of.  In the middle and level-aware revisions, when
    [maxPlayers] is absent or not a number the capacity check compares
    the player count against 4.  In the band revision the capacity is
    [Number(maxPlayers) || 4]: the count is compared against 4 when
    [maxPlayers] is absent, [null] or converts to [NaN] or 0, and against
    the converted value otherwise. *)
Theorem fallback_capacity s uid id now d :
  matches s !! id = Some d ->
  includes (array_or_empty (prop d "players")) uid = false ->
  let count := length (array_or_empty (prop d "players")) in
  let full := {| code := 400; body := message "Partido lleno" |} in
  (is_number (prop d "maxPlayers") = false ->
   answer (Middle.post_matches_join uid id now) s
   = if (4 <=? count)%nat then full
     else {| code := 200; body := message "Te uniste al partido" |})
  /\ (is_number (prop d "maxPlayers") = false ->
      LevelAware.no_level (profiles s !! uid) = false ->
      is_str "open" (prop d "status") = true ->
      answer (LevelAware.post_matches_join uid id now) s
      = if (4 <=? count)%nat then full
        else if LevelAware.lvlOk
                  (prop (default ∅ (profiles s !! uid)) "level") d
        then {| code := 200; body := message "Te uniste al partido" |}
        else {| code := 400;
                body := message "Tu nivel no coincide con el requerido" |})
  /\ (is_str uid (prop d "createdBy") = false ->
      let n := ToNumber (prop d "maxPlayers") in
      (isNaN n || num_is_zero n = true -> Band.capacity d = Fin 4)
      /\ (isNaN n || num_is_zero n = false -> Band.capacity d = n)
      /\ (d !! "maxPlayers" = None \/ d !! "maxPlayers" = Some VNull ->
          Band.capacity d = Fin 4)
      /\ answer (Band.post_matches_join uid id now) s
         = if num_ge (num_of_nat count) (Band.capacity d) then full
           else {| code := 200; body := message "Te uniste" |}).
Proof.
  intros Hd Hin count full_.
  assert (Hfour : forall c, c = Fin 4 ->
            num_ge (num_of_nat count) c = (4 <=? count)%nat).
  { intros c ->. change (Fin 4) with (num_of_nat 4).
    unfold num_ge. apply num_le_nat. }
  assert (Hcap : is_number (prop d "maxPlayers") = false ->
                 Middle.capacity d = Fin 4).
  { unfold Middle.capacity. by destruct (prop d "maxPlayers"). }
  split_and!.
  - intros Hnum. unfold Middle.post_matches_join. run_handler.
    rewrite Hd. simpl. rewrite Hin. simpl. fold count.
    rewrite (Hfour _ (Hcap Hnum)).
    destruct (4 <=? count)%nat; simpl; [done|].
    unfold update_match; simpl. by rewrite Hd.
  - intros Hnum Hlevel Hopen.
    unfold LevelAware.post_matches_join. run_handler.
    rewrite Hlevel. simpl. rewrite Hd. simpl. rewrite Hopen, Hin. simpl.
    fold count. rewrite (Hfour _ (Hcap Hnum)).
    destruct (4 <=? count)%nat; simpl; [done|].
    destruct (LevelAware.lvlOk _ d); simpl; [|done].
    unfold update_match at 1; simpl. rewrite Hd. simpl.
    rewrite lookup_insert_eq. simpl.
    destruct (num_ge _ _); simpl; [|done].
    unfold update_match; simpl. by rewrite lookup_insert_eq.
  - intros Hcreator n.
    assert (Hnan : isNaN n || num_is_zero n = true -> Band.capacity d = Fin 4).
    { intros H. unfold Band.capacity. fold n. simpl. by rewrite H. }
    split; [exact Hnan|]. split.
    { intros H. unfold Band.capacity. fold n. simpl. by rewrite H. }
    split.
    { intros [H|H]; apply Hnan; unfold n, prop; by rewrite H. }
    unfold Band.post_matches_join. run_handler.
    rewrite Hd. simpl. rewrite Hcreator, Hin. simpl. fold count.
    destruct (num_ge (num_of_nat count) (Band.capacity d)); simpl; [done|].
    unfold update_match; simpl. by rewrite Hd.
Qed.
End Capacity4.

(** In the middle revision bea joins ana's match, stored without a
    numeric capacity and holding one player of four. *)
Lemma fallback_capacity_witness :
  answer (Middle.post_matches_join "bea" "m1" 1) Sample.odd_capacity
  = {| code := 200; body := message "Te uniste al partido" |}.
Proof.
  assert (Hd : matches Sample.odd_capacity !! "m1"
               = Some (doc_at Sample.odd_capacity "m1")) by stored.
  apply (proj1 (fallback_capacity (RT := Sample.runtime)
                  Sample.odd_capacity "bea" "m1" 1 _ Hd eq_refl)).
  vm_compute; reflexivity.
Defined.

(** C10, counterexample.  In the band revision the same match, whose
    [maxPlayers] is [true] and not a number, has capacity 1: with one
    player of a supposed four it refuses bea as full. *)
Lemma band_capacity_from_non_number :
  let d := doc_at Sample.odd_capacity "m1" in
  matches Sample.odd_capacity !! "m1" = Some d
  /\ d !! "maxPlayers" = Some (VBool true)
  /\ is_number (prop d "maxPlayers") = false
  /\ length (array_or_empty (prop d "players")) = 1
  /\ Band.capacity (RT := Sample.runtime) d = Fin 1
  /\ answer (Band.post_matches_join (RT := Sample.runtime) "bea" "m1" 1)
            Sample.odd_capacity
     = {| code := 400; body := message "Partido lleno" |}.
Proof. intros d. split_and!; [stored | evaluate ..]. Qed.

(** * Further properties *)

Import Platform MoreProps.

(** ** Players and bounds of reachable matches *)

Ltac in_list :=
  repeat first [apply list_elem_of_here | apply list_elem_of_further].

Lemma includes_false_not_in (l : list value) s :
  includes l s = false -> VStr s ∉ l.
Proof.
  unfold includes. intros H Hin.
  apply not_true_iff_false in H. apply H.
  apply existsb_exists. exists (VStr s).
  split; [by apply list_elem_of_In | by apply is_str_true].
Qed.

Lemma includes_true_in (l : list value) s :
  includes l s = true <-> VStr s ∈ l.
Proof.
  unfold includes. rewrite existsb_exists. split.
  - intros (x & Hx & Hs). apply is_str_true in Hs. subst.
    by apply list_elem_of_In.
  - intros H. exists (VStr s). split; [by apply list_elem_of_In|].
    by apply is_str_true.
Qed.

Lemma elem_of_remove (l : list value) s v :
  v ∈ List.filter (fun x => negb (is_str s x)) l <-> v ∈ l /\ v <> VStr s.
Proof.
  rewrite !list_elem_of_In, filter_In.
  by rewrite negb_true_iff, <- not_true_iff_false, is_str_true.
Qed.

Lemma remove_added (l : list value) s :
  VStr s ∉ l ->
  List.filter (fun x => negb (is_str s x)) (l ++ [VStr s]) = l.
Proof.
  intros Hnot. rewrite List.filter_app. simpl.
  rewrite String.eqb_refl. simpl. rewrite app_nil_r.
  induction l as [|x l IH]; simpl; [done|].
  apply not_elem_of_cons in Hnot as [Hx Hl].
  destruct (is_str s x) eqn:E; simpl.
  - apply is_str_true in E. congruence.
  - by rewrite IH.
Qed.

Lemma NoDup_List_filter {A} (f : A -> bool) (l : list A) :
  NoDup l -> NoDup (List.filter f l).
Proof.
  induction 1 as [|x l Hx Hl IH]; simpl; [constructor|].
  destruct (f x); [|done]. constructor; [|done].
  rewrite list_elem_of_In, filter_In, <- list_elem_of_In. tauto.
Qed.

Section Membership.
Context {RT : Runtime}.

Lemma band_create_members uid p newId now s :
  all_matches membership_sound s ->
  all_matches membership_sound (Band.exec (Band.Create uid p newId) now s).
Proof.
  intros Hall.
  unfold Band.exec, Band.handle, Band.post_matches. run_handler.
  unfold Band.trimmed.
  destruct (js_or (prop p "title") (VStr "Partido")); simpl; try done.
  unfold add_match; simpl.
  destruct (forallb _ _) eqn:Hs; simpl; [|done].
  apply all_matches_insert; [done|].
  exists uid, [VStr uid].
  split_and!; try (rewrite lookup_apply_patch; reflexivity).
  - apply list_elem_of_here.
  - apply NoDup_singleton.
Qed.

Lemma band_join_members uid id now s :
  all_matches membership_sound s ->
  all_matches membership_sound (Band.exec (Band.Join uid id) now s).
Proof.
  intros Hall.
  unfold Band.exec, Band.handle, Band.post_matches_join. run_handler.
  destruct (matches s !! id) as [d|] eqn:Hd; simpl; [|done].
  destruct (Hall _ _ Hd) as (c & ps & Hc & Hps & Hin & Hnd).
  rewrite (prop_lookup _ _ _ Hps). simpl.
  destruct (is_str uid (prop d "createdBy")); simpl; [done|].
  destruct (includes ps uid) eqn:Hinc; simpl; [done|].
  destruct (num_ge _ _); simpl; [done|].
  unfold update_match; simpl. rewrite Hd. simpl.
  apply all_matches_insert; [done|].
  exists c, (ps ++ [VStr uid])%list.
  rewrite !lookup_apply_patch. simpl. rewrite Hps. simpl. rewrite Hinc.
  split_and!; [done|done|apply elem_of_app; by left|].
  apply NoDup_app. split_and!; [done| |apply NoDup_singleton].
  intros x Hx Hx'. apply list_elem_of_singleton in Hx'. subst.
  by apply (includes_false_not_in ps uid).
Qed.

Lemma band_leave_members uid id now s :
  all_matches membership_sound s ->
  all_matches membership_sound (Band.exec (Band.Leave uid id) now s).
Proof.
  intros Hall.
  unfold Band.exec, Band.handle, Band.post_matches_leave. run_handler.
  destruct (matches s !! id) as [d|] eqn:Hd; simpl; [|done].
  destruct (Hall _ _ Hd) as (c & ps & Hc & Hps & Hin & Hnd).
  rewrite (prop_lookup _ _ _ Hps), (prop_lookup _ _ _ Hc). simpl.
  destruct (includes ps uid) eqn:Hinc; simpl; [|done].
  destruct (String.eqb_spec c uid) as [|Hne]; simpl; [done|].
  unfold update_match; simpl. rewrite Hd. simpl.
  apply all_matches_insert; [done|].
  exists c. eexists. rewrite !lookup_apply_patch. simpl. rewrite Hps. simpl.
  split_and!; [done|done| |].
  - apply elem_of_remove. split; [done | congruence].
  - by apply NoDup_List_filter.
Qed.

Lemma band_edit_members uid id p now s :
  all_matches membership_sound s ->
  all_matches membership_sound (Band.exec (Band.Edit uid id p) now s).
Proof.
  intros Hall.
  unfold Band.exec, Band.handle, Band.put_matches. run_handler.
  destruct (matches s !! id) as [d|] eqn:Hd; simpl; [|done].
  destruct (negb (is_str uid (prop d "createdBy"))); simpl; [done|].
  unfold update_match; simpl.
  destruct (forallb _ _); simpl; [|done].
  rewrite Hd. simpl.
  apply all_matches_insert; [done|].
  destruct (Hall _ _ Hd) as (c & ps & Hc & Hps & Hin & Hnd).
  exists c, ps. rewrite !lookup_apply_patch. simpl. done.
Qed.

Lemma band_delete_members uid id now s :
  all_matches membership_sound s ->
  all_matches membership_sound (Band.exec (Band.Delete uid id) now s).
Proof.
  intros Hall.
  unfold Band.exec, Band.handle, Band.delete_matches. run_handler.
  destruct (matches s !! id) as [d|] eqn:Hd; simpl; [|done].
  destruct (negb (is_str uid (prop d "createdBy"))); simpl; [done|].
  by apply map_Forall_delete.
Qed.

Lemma level_create_members uid p newId now s :
  all_matches (fun d => membership_sound d /\ bounds_sound d) s ->
  all_matches (fun d => membership_sound d /\ bounds_sound d)
    (LevelAware.exec (LevelAware.Create uid p newId) now s).
Proof.
  intros Hall.
  unfold LevelAware.exec, LevelAware.handle, LevelAware.post_matches.
  run_handler.
  destruct (LevelAware.no_level _); simpl; [done|].
  destruct (LevelAware.bad_mode _) eqn:Hmode; simpl; [done|].
  destruct (num_gt _ _) eqn:Hgt; simpl; [done|].
  unfold add_match; simpl.
  destruct (forallb _ _); simpl; [|done].
  apply all_matches_insert; [done|]. split.
  - exists uid, [VStr uid]. rewrite !lookup_apply_patch. simpl.
    split_and!; [done|done|apply list_elem_of_here|apply NoDup_singleton].
  - eexists _, _. rewrite !lookup_apply_patch. simpl.
    split_and!; [done|done|exact Hgt|].
    destruct (proj1 (bad_mode_false _) Hmode) as [E | E]; rewrite E; simpl; auto.
Qed.

Lemma level_join_members uid id now s :
  all_matches (fun d => membership_sound d /\ bounds_sound d) s ->
  all_matches (fun d => membership_sound d /\ bounds_sound d)
    (LevelAware.exec (LevelAware.Join uid id) now s).
Proof.
  intros Hall.
  unfold LevelAware.exec, LevelAware.handle, LevelAware.post_matches_join.
  run_handler.
  destruct (LevelAware.no_level _); simpl; [done|].
  destruct (matches s !! id) as [d|] eqn:Hd; simpl; [|done].
  destruct (Hall _ _ Hd) as
    [(c & ps & Hc & Hps & Hin & Hnd) (lo & hi & Hlo & Hhi & Hgt & Hmode)].
  rewrite (prop_lookup _ _ _ Hps). simpl.
  destruct (negb (is_str "open" _)); simpl; [done|].
  destruct (includes ps uid) eqn:Hinc; simpl; [done|].
  destruct (num_ge _ (Middle.capacity d)); simpl; [done|].
  destruct (negb (LevelAware.lvlOk _ _)); simpl; [done|].
  unfold update_match at 1; simpl. rewrite Hd. simpl.
  rewrite lookup_insert_eq. simpl.
  set (d' := apply_patch now d [("players", FArrayUnion uid)]).
  assert (Hd' : membership_sound d' /\ bounds_sound d').
  { split.
    - exists c, (ps ++ [VStr uid])%list. unfold d'.
      rewrite !lookup_apply_patch. simpl. rewrite Hps. simpl. rewrite Hinc.
      split_and!; [done|done|apply elem_of_app; by left|].
      apply NoDup_app. split_and!; [done| |apply NoDup_singleton].
      intros x Hx Hx'. apply list_elem_of_singleton in Hx'. subst.
      by apply (includes_false_not_in ps uid).
    - exists lo, hi. unfold d'. rewrite !lookup_apply_patch. simpl. done. }
  destruct (num_ge _ _); simpl.
  - unfold update_match; simpl. rewrite lookup_insert_eq. simpl.
    rewrite insert_insert_eq.
    apply all_matches_insert; [done|].
    destruct Hd' as [(c' & ps' & Hc' & Hps' & Hin' & Hnd')
                     (lo' & hi' & Hlo' & Hhi' & Hgt' & Hmode')].
    split.
    + exists c', ps'. by rewrite !lookup_apply_patch.
    + exists lo', hi'. by rewrite !lookup_apply_patch.
  - by apply all_matches_insert.
Qed.

Lemma level_reachable_sound s :
  LevelAware.reachable s ->
  all_matches (fun d => membership_sound d /\ bounds_sound d) s.
Proof.
  induction 1 as [p | s p Hr IH | s r now Hr IH Hfresh].
  - apply map_Forall_empty.
  - exact IH.
  - destruct r.
    + by apply level_create_members.
    + by apply level_join_members.
Qed.

Lemma band_reachable_sound s :
  Band.reachable s -> all_matches membership_sound s.
Proof.
  induction 1 as [p | s r now Hr IH Hfresh]; [apply map_Forall_empty|].
  destruct r.
  - by apply band_create_members.
  - by apply band_join_members.
  - by apply band_leave_members.
  - by apply band_edit_members.
  - by apply band_delete_members.
Qed.

(** X1.  In the band revision and in the level-aware revision, every
    match of every reachable store lists its creator among its players
    and lists no player twice. *)
Theorem creator_stays_and_no_duplicates rev s id d :
  reachable_in rev s -> matches s !! id = Some d -> membership_sound d.
Proof.
  destruct rev; simpl; intros Hr Hd.
  - exact (band_reachable_sound s Hr id d Hd).
  - by destruct (level_reachable_sound s Hr id d Hd).
Qed.

(** X2.  In the level-aware revision, every match of every reachable
    store has numeric bounds with [levelMin] not above [levelMax], and a
    capacity of 2 with mode ["1v1"] or of 4 with mode ["2v2"]. *)
Theorem bounds_stay_ordered s id d :
  LevelAware.reachable s -> matches s !! id = Some d -> bounds_sound d.
Proof.
  intros Hr Hd. by destruct (level_reachable_sound s Hr id d Hd).
Qed.
End Membership.

Lemma band_joined_reachable :
  Band.reachable (RT := Sample.runtime) Sample.band_joined.
Proof.
  unfold Sample.band_joined. apply Band.reach_step.
  - exact band_created_reachable.
  - exact I.
Qed.

Lemma level_joined_reachable :
  LevelAware.reachable (RT := Sample.runtime) Sample.level_joined.
Proof.
  unfold Sample.level_joined, Sample.level_created.
  apply LevelAware.reach_step; [|exact I].
  apply LevelAware.reach_step; [apply LevelAware.reach_init | reflexivity].
Qed.

Lemma creator_stays_and_no_duplicates_witness :
  membership_sound (doc_at Sample.band_joined "m1").
Proof.
  apply (creator_stays_and_no_duplicates (RT := Sample.runtime)
           BandRevision Sample.band_joined "m1").
  - exact band_joined_reachable.
  - stored.
Defined.

Lemma bounds_stay_ordered_witness :
  bounds_sound (doc_at Sample.level_joined "m1").
Proof.
  apply (bounds_stay_ordered (RT := Sample.runtime) Sample.level_joined "m1").
  - exact level_joined_reachable.
  - stored.
Defined.

(** ** Joining, leaving, editing and deleting in the band revision *)

Section BandMatches.
Context {RT : Runtime}.

(** X3.  In the band revision, a join that succeeds followed by a leave
    of the same caller succeeds too and gives the players back as they
    were, with status ["open"]; apart from [updatedAt] no other field and
    no other match has changed. *)
Theorem join_then_leave s uid id now now' d :
  matches s !! id = Some d ->
  let join := Band.post_matches_join uid id now in
  let leave := Band.post_matches_leave uid id now' in
  code (answer join s) = 200 ->
  exists d2,
    answer leave (store_after join s)
    = {| code := 200; body := message "Saliste del partido" |}
    /\ matches (store_after leave (store_after join s)) !! id = Some d2
    /\ d2 !! "players" = Some (VArr (array_or_empty (prop d "players")))
    /\ d2 !! "status" = Some (VStr "open")
    /\ (forall k, k ∉ ["players"; "status"; "updatedAt"] -> d2 !! k = d !! k)
    /\ forall id', id' <> id ->
         matches (store_after leave (store_after join s)) !! id'
         = matches s !! id'.
Proof.
  intros Hd join leave. unfold join, leave.
  unfold Band.post_matches_join, Band.post_matches_leave. run_handler.
  rewrite Hd. simpl.
  destruct (is_str uid (prop d "createdBy")) eqn:Hcreator; simpl;
    [discriminate|].
  destruct (includes _ uid) eqn:Hinc; simpl; [discriminate|].
  destruct (num_ge _ (Band.capacity d)); simpl; [discriminate|].
  unfold update_match; simpl. rewrite Hd. simpl. intros _.
  rewrite !lookup_insert_eq. simpl.
  set (ps := array_or_empty (prop d "players")) in *.
  set (d1 := apply_patch now d _).
  assert (Hps1 : d1 !! "players" = Some (VArr (ps ++ [VStr uid]))).
  { unfold d1. rewrite lookup_apply_patch. simpl. unfold ps, prop in *.
    destruct (d !! "players") as [[]|]; simpl in *; try done.
    by rewrite Hinc. }
  assert (Hc1 : prop d1 "createdBy" = prop d "createdBy").
  { unfold prop, d1. by rewrite lookup_apply_patch. }
  rewrite (prop_lookup _ _ _ Hps1), Hc1, Hcreator. simpl.
  assert (Hin1 : includes (ps ++ [VStr uid]) uid = true).
  { apply includes_true_in. apply elem_of_app. right. in_list. }
  rewrite Hin1. simpl. rewrite !lookup_insert_eq. simpl.
  eexists. split; [done|]. rewrite lookup_insert_eq. split; [reflexivity|].
  rewrite !lookup_apply_patch. simpl. rewrite Hps1. simpl.
  split_and!.
  - do 2 f_equal. apply remove_added. by apply includes_false_not_in.
  - done.
  - intros k Hk. rewrite lookup_apply_patch, assoc_None by done.
    unfold d1. by rewrite lookup_apply_patch, assoc_None.
  - intros id' Hne. by rewrite !lookup_insert_ne.
Qed.

(** X4.  In the band revision, an edit or a delete by a caller who is
    not the creator of the match is answered 403 and writes nothing. *)
Theorem only_creator_edits_or_deletes s uid id (p : obj) now d :
  matches s !! id = Some d ->
  is_str uid (prop d "createdBy") = false ->
  (answer (Band.put_matches uid id p now) s
   = {| code := 403; body := message "No autorizado" |}
   /\ store_after (Band.put_matches uid id p now) s = s
   /\ writes (Band.put_matches uid id p now) s = [])
  /\ (answer (Band.delete_matches uid id) s
      = {| code := 403; body := message "No autorizado" |}
      /\ store_after (Band.delete_matches uid id) s = s
      /\ writes (Band.delete_matches uid id) s = []).
Proof.
  intros Hd Hc.
  unfold Band.put_matches, Band.delete_matches. run_handler.
  rewrite Hd. simpl. rewrite Hc. simpl. by destruct s.
Qed.

(** X5.  In the band revision, a delete by the creator is answered
    200 after a single delete: the match is gone, every other match and
    every profile is as before. *)
Theorem creator_deletes s uid id d :
  matches s !! id = Some d ->
  is_str uid (prop d "createdBy") = true ->
  let h := Band.delete_matches uid id in
  answer h s = {| code := 200; body := VObj {[ "ok" := VBool true ]} |}
  /\ writes h s = [WDelete id]
  /\ matches (store_after h s) !! id = None
  /\ (forall id', id' <> id ->
        matches (store_after h s) !! id' = matches s !! id')
  /\ profiles (store_after h s) = profiles s.
Proof.
  intros Hd Hc h. unfold h, Band.delete_matches. run_handler.
  rewrite Hd. simpl. rewrite Hc. simpl.
  split_and!; try done.
  - apply lookup_delete_eq.
  - intros id' Hne. by apply lookup_delete_ne.
Qed.

(** X6.  In the band revision, an edit by the creator whose body gives
    none of the seven editable fields (absent or [null]), on a match that
    holds them and their two ranks, succeeds and changes nothing but
    [updatedAt]. *)
Theorem edit_with_nothing_to_change s uid id (p : obj) now d :
  matches s !! id = Some d ->
  is_str uid (prop d "createdBy") = true ->
  (forall k, k ∈ ["title"; "date"; "time"; "location"; "zone";
                  "levelMin"; "levelMax"] ->
             p !! k = None \/ p !! k = Some VNull) ->
  (forall k, k ∈ ["title"; "date"; "time"; "location"; "zone";
                  "levelMin"; "levelMax"; "levelMinRank"; "levelMaxRank"] ->
             exists v, d !! k = Some v /\ storable (FSet v) = true) ->
  let h := Band.put_matches uid id p now in
  exists d',
    code (answer h s) = 200
    /\ matches (store_after h s) !! id = Some d'
    /\ d' !! "updatedAt" = Some (VTimestamp now)
    /\ forall k, k <> "updatedAt" -> d' !! k = d !! k.
Proof.
  intros Hd Hc Hbody Hstored h.
  assert (Hnull : forall k,
            k ∈ ["title"; "date"; "time"; "location"; "zone";
                 "levelMin"; "levelMax"] ->
            prop p k = VUndef \/ prop p k = VNull).
  { intros k Hk. unfold prop. destruct (Hbody k Hk) as [-> | ->]; auto. }
  assert (Hkeep : forall k,
            k ∈ ["title"; "date"; "time"; "location"; "zone";
                 "levelMin"; "levelMax"] ->
            exists v, nullish (prop p k) (prop d k) = v
                      /\ truthy (prop p k) = false
                      /\ d !! k = Some v /\ storable (FSet v) = true).
  { intros k Hk. destruct (Hstored k) as (v & Hv & Hs).
    { rewrite !elem_of_cons in *. tauto. }
    exists v. rewrite (prop_lookup _ _ _ Hv).
    destruct (Hnull k Hk) as [-> | ->]; done. }
  destruct (Hkeep "title") as (v1 & E1 & _ & H1 & S1); [in_list|].
  destruct (Hkeep "date") as (v2 & E2 & _ & H2 & S2); [in_list|].
  destruct (Hkeep "time") as (v3 & E3 & _ & H3 & S3); [in_list|].
  destruct (Hkeep "location") as (v4 & E4 & _ & H4 & S4); [in_list|].
  destruct (Hkeep "zone") as (v5 & E5 & _ & H5 & S5); [in_list|].
  destruct (Hkeep "levelMin") as (v6 & E6 & F6 & H6 & S6); [in_list|].
  destruct (Hkeep "levelMax") as (v7 & E7 & F7 & H7 & S7); [in_list|].
  destruct (Hstored "levelMinRank") as (v8 & H8 & S8); [in_list|].
  destruct (Hstored "levelMaxRank") as (v9 & H9 & S9); [in_list|].
  unfold h, Band.put_matches. run_handler.
  rewrite Hd. simpl. rewrite Hc. simpl.
  rewrite E1, E2, E3, E4, E5, E6, E7, F6, F7.
  rewrite (prop_lookup _ _ _ H8), (prop_lookup _ _ _ H9).
  unfold update_match.
  replace (forallb _ _) with true.
  2:{ symmetry. apply forallb_forall. intros x Hx.
      apply list_elem_of_In in Hx. rewrite !elem_of_cons in Hx.
      destruct_or!; subst; try assumption; try done.
      by apply elem_of_nil in Hx. }
  simpl. rewrite Hd. simpl. rewrite !lookup_insert_eq.
  eexists. split; [done|]. split; [reflexivity|].
  split; [by rewrite lookup_apply_patch|].
  intros k Hk. destruct (decide (k ∈ editable)) as [Hin|Hout].
  - unfold editable in Hin. rewrite !elem_of_cons in Hin.
    destruct_or!; subst; try (by apply elem_of_nil in Hin);
      rewrite lookup_apply_patch; simpl; congruence.
  - rewrite lookup_apply_patch. by rewrite assoc_None.
Qed.

(** X7.  In the band revision, an edit by the creator fails with 500
    and writes nothing when one of the seven editable fields is missing
    both from the stored match and from the body: the patch would hold
    [undefined]. *)
Theorem edit_of_missing_field_fails s uid id (p : obj) now d k :
  matches s !! id = Some d ->
  is_str uid (prop d "createdBy") = true ->
  k ∈ ["title"; "date"; "time"; "location"; "zone";
       "levelMin"; "levelMax"] ->
  d !! k = None ->
  p !! k = None \/ p !! k = Some VNull ->
  let h := Band.put_matches uid id p now in
  code (answer h s) = 500 /\ store_after h s = s /\ writes h s = [].
Proof.
  intros Hd Hc Hk Hnone Hbody h.
  assert (Hundef : nullish (prop p k) (prop d k) = VUndef).
  { unfold prop. rewrite Hnone. by destruct Hbody as [-> | ->]. }
  unfold h, Band.put_matches. run_handler.
  rewrite Hd. simpl. rewrite Hc. simpl.
  unfold update_match.
  replace (forallb _ _) with false; [by destruct s|].
  symmetry. apply not_true_iff_false. rewrite forallb_forall.
  intros Hall.
  specialize (Hall (k, FSet (nullish (prop p k) (prop d k)))).
  rewrite Hundef in Hall. simpl in Hall.
  assert (false = true); [|done]. apply Hall.
  rewrite <- Hundef.
  rewrite !elem_of_cons in Hk.
  destruct Hk as [->|[->|[->|[->|[->|[->|[->|Hk]]]]]]];
    [simpl; tauto ..|by apply elem_of_nil in Hk].
Qed.
End BandMatches.

Lemma join_then_leave_witness :
  let s := Sample.band_created in
  let join := Band.post_matches_join (RT := Sample.runtime) "bea" "m1" 1 in
  let leave := Band.post_matches_leave "bea" "m1" 2 in
  exists d2,
    matches (store_after leave (store_after join s)) !! "m1" = Some d2
    /\ d2 !! "players"
       = Some (VArr (array_or_empty (prop (doc_at s "m1") "players"))).
Proof.
  intros s join leave.
  assert (Hd : matches s !! "m1" = Some (doc_at s "m1")) by stored.
  assert (Hok : code (answer join s) = 200) by evaluate.
  destruct (join_then_leave (RT := Sample.runtime) s "bea" "m1" 1 2 _ Hd Hok)
    as (d2 & _ & Hd2 & Hps & _).
  exists d2. exact (conj Hd2 Hps).
Defined.

Lemma only_creator_edits_or_deletes_witness :
  let s := Sample.band_created in
  answer (Band.delete_matches "bea" "m1") s
  = {| code := 403; body := message "No autorizado" |}
  /\ store_after (Band.put_matches (RT := Sample.runtime) "bea" "m1" ∅ 1) s = s.
Proof.
  intros s.
  assert (Hd : matches s !! "m1" = Some (doc_at s "m1")) by stored.
  assert (Hc : is_str "bea" (prop (doc_at s "m1") "createdBy") = false)
    by evaluate.
  destruct (only_creator_edits_or_deletes (RT := Sample.runtime)
              s "bea" "m1" ∅ 1 _ Hd Hc)
    as ((_ & Hput & _) & Hdel & _).
  exact (conj Hdel Hput).
Defined.

Lemma creator_deletes_witness :
  matches (store_after (Band.delete_matches "ana" "m1") Sample.band_created)
    !! "m1" = None.
Proof.
  assert (Hd : matches Sample.band_created !! "m1"
               = Some (doc_at Sample.band_created "m1")) by stored.
  assert (Hc : is_str "ana" (prop (doc_at Sample.band_created "m1")
                               "createdBy") = true) by evaluate.
  exact (proj1 (proj2 (proj2
           (creator_deletes Sample.band_created "ana" "m1" _ Hd Hc)))).
Defined.

Lemma held_storable (d : obj) (k : string) :
  match d !! k with Some v => storable (FSet v) | None => false end = true ->
  exists v, d !! k = Some v /\ storable (FSet v) = true.
Proof. destruct (d !! k) as [v|]; [by exists v | discriminate]. Qed.

Lemma edit_with_nothing_to_change_witness :
  let s := Sample.band_created in
  let h := Band.put_matches (RT := Sample.runtime) "ana" "m1" ∅ 3 in
  exists d',
    matches (store_after h s) !! "m1" = Some d'
    /\ forall k, k <> "updatedAt" -> d' !! k = doc_at s "m1" !! k.
Proof.
  intros s h.
  assert (Hd : matches s !! "m1" = Some (doc_at s "m1")) by stored.
  assert (Hc : is_str "ana" (prop (doc_at s "m1") "createdBy") = true)
    by evaluate.
  assert (Hbody : forall k : string,
            k ∈ ["title"; "date"; "time"; "location"; "zone";
                 "levelMin"; "levelMax"] ->
            (∅ : obj) !! k = None \/ (∅ : obj) !! k = Some VNull).
  { intros k _. left. apply lookup_empty. }
  assert (Hheld : forall k : string,
            k ∈ ["title"; "date"; "time"; "location"; "zone";
                 "levelMin"; "levelMax"; "levelMinRank"; "levelMaxRank"] ->
            exists v, doc_at s "m1" !! k = Some v
                      /\ storable (FSet v) = true).
  { apply Forall_forall.
    repeat (apply Forall_cons_2; [apply held_storable; evaluate|]).
    apply Forall_nil_2. }
  destruct (edit_with_nothing_to_change (RT := Sample.runtime)
              s "ana" "m1" ∅ 3 _ Hd Hc Hbody Hheld)
    as (d' & _ & Hd' & _ & Hsame).
  exists d'. exact (conj Hd' Hsame).
Defined.

Lemma edit_of_missing_field_fails_witness :
  code (answer (Band.put_matches (RT := Sample.runtime) "ana" "m1" ∅ 3)
          Sample.middle_created) = 500.
Proof.
  assert (Hd : matches Sample.middle_created !! "m1"
               = Some (doc_at Sample.middle_created "m1")) by stored.
  assert (Hc : is_str "ana" (prop (doc_at Sample.middle_created "m1")
                               "createdBy") = true) by evaluate.
  assert (Hk : "title" ∈ ["title"; "date"; "time"; "location"; "zone";
                          "levelMin"; "levelMax"]) by apply list_elem_of_here.
  assert (Hnone : doc_at Sample.middle_created "m1" !! "title" = None)
    by evaluate.
  exact (proj1 (edit_of_missing_field_fails (RT := Sample.runtime)
                  Sample.middle_created "ana" "m1" ∅ 3 _ "title"
                  Hd Hc Hk Hnone (or_introl (lookup_empty "title")))).
Defined.

(** ** The feeds of the band revision *)

Lemma insert_desc_descending x l :
  descending l -> descending (Band.insert_desc x l).
Proof.
  induction l as [|y l IH]; simpl; [done|].
  intros [Hy Hl]. destruct (Z.leb_spec (Band.sort_key y) (Band.sort_key x)).
  - simpl. split_and!; [|done|done].
    constructor; [done|]. eapply Forall_impl; [exact Hy|]. simpl. lia.
  - simpl. split; [|by apply IH].
    rewrite insert_desc_perm. constructor; [lia | done].
Qed.

Lemma sort_descending l : descending (foldr Band.insert_desc [] l).
Proof.
  induction l as [|x l IH]; simpl; [done|]. by apply insert_desc_descending.
Qed.

Lemma descending_newest_first l : descending l -> newest_first l.
Proof.
  induction l as [|x l IH]; intros Hl i j a b Hij Hi Hj.
  - by rewrite lookup_nil in Hi.
  - destruct Hl as [Hx Hl]. destruct i as [|i], j as [|j]; simpl in *.
    + injection Hi as <-. injection Hj as <-. lia.
    + injection Hi as <-. rewrite Forall_forall in Hx.
      apply Hx. eapply list_elem_of_lookup_2. exact Hj.
    + lia.
    + apply (IH Hl i j); [lia|done|done].
Qed.

Lemma forallb_false_exists {A} (f : A -> bool) (l : list A) :
  forallb f l = false -> exists x, x ∈ l /\ f x = false.
Proof.
  induction l as [|x l IH]; [discriminate|].
  change (forallb f (x :: l)) with (f x && forallb f l).
  destruct (f x) eqn:Hx; simpl.
  - intros H. destruct (IH H) as (y & Hy & Hf). exists y.
    split; [by apply list_elem_of_further | done].
  - intros _. exists x. split; [apply list_elem_of_here | done].
Qed.

Section Feeds.
Context {RT : Runtime} {ST : Storage}.

Lemma sort_newest_first_outcome (items : list obj) w :
  match Band.sort_newest_first items w with
  | (Done sorted, w') =>
      w' = w /\ sorted ≡ₚ items /\ newest_first sorted
  | (Thrown e, w') =>
      w' = w /\ e = TypeError /\ 2 <= length items
      /\ exists m, m ∈ items
                   /\ Band.created_millis (prop m "createdAt") = None
  end.
Proof.
  unfold Band.sort_newest_first.
  destruct (2 <=? length items)%nat eqn:Hlen; simpl.
  - destruct (forallb _ items) eqn:Hall; simpl.
    + split; [done|]. split; [apply sort_desc_perm|].
      apply descending_newest_first, sort_descending.
    + split; [done|]. split; [done|].
      split; [by apply Nat.leb_le|].
      destruct (forallb_false_exists _ _ Hall) as (m & Hm & Hf).
      exists m. split; [done|].
      apply bool_decide_eq_false in Hf.
      destruct (Band.created_millis _); [|done].
      exfalso. apply Hf. by eexists.
  - split; [done|]. split; [apply sort_desc_perm|].
    apply descending_newest_first, sort_descending.
Qed.

(** X8.  The in-memory sort of the band listings either returns a
    rearrangement of the items with the newest first, or throws a
    [TypeError], which takes two items at least and one whose
    [createdAt.toMillis] is present and not callable; it touches no
    state. *)
Theorem sorted_newest_first (items : list obj) w :
  match Band.sort_newest_first items w with
  | (Done sorted, w') =>
      w' = w /\ sorted ≡ₚ items /\ newest_first sorted
  | (Thrown e, w') =>
      w' = w /\ e = TypeError /\ 2 <= length items
      /\ exists m, m ∈ items
                   /\ Band.created_millis (prop m "createdAt") = None
  end.
Proof. exact (sort_newest_first_outcome items w). Qed.

Lemma fetched_open q (m : gmap string obj) (items : list obj) :
  ("status", "open") ∈ q_eq q ->
  (forall x, x ∈ items -> x ∈ map (fun d => with_id d.1 d.2) (select q m)) ->
  forall x, x ∈ items ->
    prop x "status" = VStr "open"
    /\ exists id d, m !! id = Some d /\ x = with_id id d.
Proof.
  intros Hq Hsub x Hx.
  apply Hsub, list_elem_of_In, in_map_iff in Hx as (y & <- & Hy).
  apply list_elem_of_In, select_sound in Hy as [Hsat Hst].
  split.
  - rewrite prop_with_id by done. by apply (satisfies_eq q "status" "open").
  - by exists y.1, y.2.
Qed.

(** X9.  [GET /matches/open] answers 500 or at most fifty stored
    matches, newest first, each with status ["open"]. *)
Theorem open_feed s :
  let r := answer BandRoutes.get_matches_open s in
  code r = 500
  \/ exists items,
       r = {| code := 200; body := VArr (VObj <$> items) |}
       /\ length items <= 50
       /\ newest_first items
       /\ forall m, m ∈ items ->
            prop m "status" = VStr "open"
            /\ exists id d, matches s !! id = Some d /\ m = with_id id d.
Proof.
  unfold BandRoutes.get_matches_open. run_handler. unfold run_query. simpl.
  destruct (fs_serves _); simpl; [|by left].
  pose proof (sort_newest_first_outcome
                (map (fun d => with_id d.1 d.2)
                   (select BandRoutes.open_query (matches s)))
                (start s)) as Hsort.
  unfold start in Hsort.
  destruct (Band.sort_newest_first _ _) as [[sorted|e] w']; simpl;
    [|by left].
  destruct Hsort as (-> & Hperm & Hnew).
  right. exists sorted. split; [done|]. split.
  - rewrite Hperm, length_map.
    apply (select_length BandRoutes.open_query).
  - split; [done|].
    apply (fetched_open BandRoutes.open_query); [apply list_elem_of_here|].
    intros x Hx. by rewrite <- Hperm.
Qed.

(** X10.  [GET /matches/available] answers 500 or at most fifty stored
    matches, newest first, each with status ["open"], none created by the
    caller and none with the caller among its players. *)
Theorem available_feed s uid :
  let r := answer (BandRoutes.get_matches_available uid) s in
  code r = 500
  \/ exists items,
       r = {| code := 200; body := VArr (VObj <$> items) |}
       /\ length items <= 50
       /\ newest_first items
       /\ forall m, m ∈ items ->
            prop m "status" = VStr "open"
            /\ prop m "createdBy" <> VStr uid
            /\ (VStr uid ∉ array_or_empty (prop m "players"))
            /\ exists id d, matches s !! id = Some d /\ m = with_id id d.
Proof.
  unfold BandRoutes.get_matches_available. run_handler.
  unfold run_query. simpl.
  destruct (fs_serves _); simpl; [|by left].
  set (fetched := map (fun d => with_id d.1 d.2)
                    (select BandRoutes.open_query (matches s))).
  pose proof (sort_newest_first_outcome
                (List.filter (BandRoutes.not_mine uid) fetched)
                (start s)) as Hsort.
  unfold start in Hsort.
  destruct (Band.sort_newest_first _ _) as [[sorted|e] w']; simpl;
    [|by left].
  destruct Hsort as (-> & Hperm & Hnew).
  right. exists sorted. split; [done|]. split.
  - rewrite Hperm. etrans; [apply List.filter_length_le|].
    unfold fetched. rewrite length_map.
    apply (select_length BandRoutes.open_query).
  - split; [done|]. intros m Hm. rewrite Hperm in Hm.
    apply elem_of_List_filter in Hm as [Hm Hnot].
    destruct (fetched_open BandRoutes.open_query (matches s) fetched)
      with (x := m) as [Hopen Hdoc]; [apply list_elem_of_here|done|done|].
    unfold BandRoutes.not_mine in Hnot.
    apply andb_true_iff in Hnot as [Hc Hp].
    rewrite negb_true_iff in Hc, Hp.
    split_and!; [done| |by apply includes_false_not_in|done].
    intros Hcr. apply is_str_true in Hcr. congruence.
Qed.

Lemma map_set_keys k v (l : list (string * obj)) :
  (BandRoutes.map_set k v l).*1
  = if decide (k ∈ l.*1) then l.*1 else (l.*1 ++ [k])%list.
Proof.
  induction l as [|[k' v'] l IH]; csimpl; [done|].
  destruct (String.eqb_spec k' k) as [->|Hne]; csimpl.
  - rewrite decide_True; [done | apply list_elem_of_here].
  - rewrite IH. destruct (decide (k ∈ l.*1)).
    + rewrite decide_True; [done | by apply list_elem_of_further].
    + rewrite decide_False; [done|].
      rewrite elem_of_cons. intros [?|?]; congruence.
Qed.

Lemma map_set_NoDup k v (l : list (string * obj)) :
  NoDup l.*1 -> NoDup (BandRoutes.map_set k v l).*1.
Proof.
  intros Hnd. rewrite map_set_keys. destruct (decide _); [done|].
  apply NoDup_app. split_and!; [done| |apply NoDup_singleton].
  intros x Hx Hx'. apply list_elem_of_singleton in Hx'. by subst.
Qed.

Lemma map_set_elem k v (l : list (string * obj)) e :
  e ∈ BandRoutes.map_set k v l -> e = (k, v) \/ e ∈ l.
Proof.
  induction l as [|[k' v'] l IH]; simpl.
  - intros H. apply list_elem_of_singleton in H. by left.
  - destruct (String.eqb k' k).
    + rewrite !elem_of_cons. tauto.
    + rewrite !elem_of_cons. intros [H|H]; [tauto|].
      destruct (IH H); tauto.
Qed.

Lemma map_set_length k v (l : list (string * obj)) :
  length (BandRoutes.map_set k v l) <= S (length l).
Proof.
  induction l as [|[k' v'] l IH]; simpl; [lia|].
  destruct (String.eqb k' k); simpl; lia.
Qed.

Lemma collected (docs : list (string * obj)) acc :
  let entries :=
    foldl (fun acc d => BandRoutes.map_set d.1 (with_id d.1 d.2) acc)
          acc docs in
  (NoDup acc.*1 -> NoDup entries.*1)
  /\ length entries <= length acc + length docs
  /\ forall e, e ∈ entries ->
       e ∈ acc \/ exists d, d ∈ docs /\ e = (d.1, with_id d.1 d.2).
Proof.
  revert acc. induction docs as [|d docs IH]; intros acc; simpl.
  - split_and!; [done|lia|by left].
  - destruct (IH (BandRoutes.map_set d.1 (with_id d.1 d.2) acc))
      as (Hnd & Hlen & Hel).
    split_and!.
    + intros H. by apply Hnd, map_set_NoDup.
    + pose proof (map_set_length d.1 (with_id d.1 d.2) acc). lia.
    + intros e He. destruct (Hel e He) as [Hacc|(d' & Hd' & ->)].
      * apply map_set_elem in Hacc as [->|Hacc]; [|by left].
        right. exists d. split; [apply list_elem_of_here | done].
      * right. exists d'. split; [by apply list_elem_of_further | done].
Qed.

Lemma select_joined_sound uid (m : gmap string obj) x :
  x ∈ BandRoutes.select_joined uid m ->
  m !! x.1 = Some x.2 /\ VStr uid ∈ array_or_empty (prop x.2 "players").
Proof.
  unfold BandRoutes.select_joined. intros Hx.
  apply subseteq_take in Hx. rewrite fs_sort_perm in Hx.
  apply elem_of_List_filter in Hx as [Hx Hj]. split.
  - destruct x. by apply elem_of_map_to_list.
  - by apply includes_true_in.
Qed.

(** X11.  [GET /matches/mine] answers 500 or at most a hundred
    matches, newest first, each stored match at most once, and each
    either created by the caller or with the caller among its players. *)
Theorem mine_feed s uid :
  let r := answer (BandRoutes.get_matches_mine uid) s in
  code r = 500
  \/ exists entries items,
       r = {| code := 200; body := VArr (VObj <$> items) |}
       /\ items ≡ₚ entries.*2
       /\ NoDup entries.*1
       /\ length items <= 100
       /\ newest_first items
       /\ forall id m, (id, m) ∈ entries ->
            exists d, matches s !! id = Some d
                      /\ m = with_id id d
                      /\ (prop d "createdBy" = VStr uid
                          \/ VStr uid ∈ array_or_empty (prop d "players")).
Proof.
  unfold BandRoutes.get_matches_mine. run_handler.
  unfold run_query, BandRoutes.run_joined. simpl.
  destruct (fs_serves _); simpl; [|by left].
  set (created := select (BandRoutes.created_query uid) (matches s)).
  set (joined := BandRoutes.select_joined uid (matches s)).
  set (entries := foldl _ [] (created ++ joined)).
  destruct (collected (created ++ joined) []) as (Hnd & Hlen & Hel).
  fold entries in Hnd, Hlen, Hel.
  pose proof (sort_newest_first_outcome (map snd entries) (start s)) as Hsort.
  unfold start in Hsort.
  destruct (Band.sort_newest_first _ _) as [[sorted|e] w']; simpl;
    [|by left].
  destruct Hsort as (-> & Hperm & Hnew).
  right. exists entries, sorted. split; [done|]. split; [done|].
  split; [apply Hnd; constructor|]. split.
  - rewrite Hperm, length_map. simpl in Hlen. rewrite length_app in Hlen.
    pose proof (select_length (BandRoutes.created_query uid) (matches s)).
    assert (length joined <= 50).
    { unfold joined, BandRoutes.select_joined. rewrite length_take. lia. }
    change (q_limit (BandRoutes.created_query uid)) with 50 in *.
    fold created in H. lia.
  - split; [done|]. intros id m Hin.
    destruct (Hel _ Hin) as [Hnil|(d & Hd & [= -> ->])];
      [by apply elem_of_nil in Hnil|].
    apply elem_of_app in Hd as [Hd|Hd].
    + apply select_sound in Hd as [Hsat Hst].
      exists d.2. split; [done|]. split; [done|]. left.
      apply (satisfies_eq (BandRoutes.created_query uid) "createdBy" uid);
        [apply list_elem_of_here | done].
    + apply select_joined_sound in Hd as [Hst Hj].
      exists d.2. split; [done|]. split; [done|]. by right.
Qed.
End Feeds.

(** ** Access and profiles *)

Lemma substring_all t : String.substring 0 (String.length t) t = t.
Proof. induction t as [|c t IH]; simpl; [done | by rewrite IH]. Qed.

Lemma slice7_bearer t : slice7 ("Bearer " ++ t) = t.
Proof. unfold slice7. simpl. rewrite Nat.sub_0_r. apply substring_all. Qed.

Lemma prefix_bearer t : String.prefix "Bearer " ("Bearer " ++ t) = true.
Proof. simpl. by destruct t. Qed.


Section Access.
Context {RT : Runtime} {ST : Storage} {SV : Services}.

(** X12.  With the header [Authorization: Bearer t], the auth
    middleware of the band revision asks the identity provider about
    exactly [t]: it runs the handler as the decoded uid, or answers 401
    with the provider's message.  The middleware of the other two
    revisions does the same when [t] is not empty. *)
Theorem bearer_token_is_verified (t : string) (next : string -> handler) w :
  let outcome :=
    match verifyIdToken t with
    | inl uid => next uid w
    | inr detail =>
        ({| code := 401;
            body := VObj {[ "message" := VStr "Token inválido";
                            "detail" := VStr detail ]} |}, w)
    end in
  BandRoutes.authMiddleware (Some ("Bearer " ++ t)) next w = outcome
  /\ (t <> "" ->
      LevelAwareRoutes.authMiddleware (Some ("Bearer " ++ t)) next w = outcome).
Proof.
  intros outcome.
  unfold BandRoutes.authMiddleware, LevelAwareRoutes.authMiddleware.
  cbv beta zeta.
  change (default "" (Some ("Bearer " ++ t))) with ("Bearer " ++ t).
  rewrite prefix_bearer, slice7_bearer. split; [done|].
  intros Hne. by destruct (String.eqb_spec t "").
Qed.

(** X13.  A request whose [Authorization] header is absent or does not
    start with ["Bearer "] is answered 401 ["No token"] by both
    middlewares, the handler not run and nothing written; the middleware
    of the middle and level-aware revisions answers the same to a bare
    ["Bearer "]. *)
Theorem no_token_no_entry (authorization : option string)
    (next : string -> handler) s :
  String.prefix "Bearer " (default "" authorization) = false
  \/ authorization = Some "Bearer " ->
  let denied := {| code := 401; body := message "No token" |} in
  (String.prefix "Bearer " (default "" authorization) = false ->
   answer (BandRoutes.authMiddleware authorization next) s = denied
   /\ store_after (BandRoutes.authMiddleware authorization next) s = s
   /\ writes (BandRoutes.authMiddleware authorization next) s = [])
  /\ answer (LevelAwareRoutes.authMiddleware authorization next) s = denied
  /\ store_after (LevelAwareRoutes.authMiddleware authorization next) s = s
  /\ writes (LevelAwareRoutes.authMiddleware authorization next) s = [].
Proof.
  intros Hcase denied.
  unfold BandRoutes.authMiddleware, LevelAwareRoutes.authMiddleware,
         answer, store_after, writes, start.
  split.
  - intros Hp. rewrite Hp. simpl. by destruct s.
  - destruct Hcase as [Hp | ->].
    + rewrite Hp. simpl. by destruct s.
    + simpl. by destruct s.
Qed.

Lemma lookup_merge_patch now (d : obj) p k :
  merge_patch now d p !! k
  = match assoc p k with
    | Some o => Some (merge_field now (d !! k) o)
    | None => d !! k
    end.
Proof.
  unfold merge_patch. rewrite lookup_merge, lookup_list_to_map_assoc.
  destruct (d !! k), (assoc p k); done.
Qed.

Lemma good_level (L : number) :
  LevelAwareRoutes.bad_level L = false ->
  exists q, L = Fin q /\ (1 <= q)%Q /\ (q <= 7)%Q.
Proof.
  unfold LevelAwareRoutes.bad_level.
  rewrite !orb_false_iff, negb_false_iff. intros [[Hfin Hlo] Hhi].
  destruct L as [| |q|]; try discriminate. exists q. split; [done|].
  unfold num_gt, num_lt in *. rewrite negb_false_iff in Hlo, Hhi.
  by rewrite <- !Qle_bool_iff.
Qed.

Lemma posted_profile s uid (body : obj) now :
  let h := LevelAwareRoutes.post_profiles_me uid body now in
  (code (answer h s) = 200 ->
   exists q d',
     ToNumber (prop body "level") = Fin q /\ (1 <= q)%Q /\ (q <= 7)%Q
     /\ truthy (prop body "displayName") = true
     /\ StringTrim (ToString (prop body "displayName")) <> ""
     /\ profiles (store_after h s) !! uid = Some d'
     /\ d' !! "uid" = Some (VStr uid)
     /\ d' !! "level" = Some (VNum (Fin q))
     /\ d' !! "displayName"
        = Some (VStr (StringTrim (ToString (prop body "displayName"))))
     /\ (forall k, k ∉ (LevelAwareRoutes.profile_doc uid body).*1 ->
           d' !! k = default ∅ (profiles s !! uid) !! k)
     /\ (forall uid', uid' <> uid ->
           profiles (store_after h s) !! uid' = profiles s !! uid')
     /\ matches (store_after h s) = matches s)
  /\ (code (answer h s) <> 200 ->
      code (answer h s) = 400 /\ store_after h s = s)
  /\ writes h s = [].
Proof.
  intros h. unfold h, LevelAwareRoutes.post_profiles_me, try_catch_400.
  run_handler.
  destruct (LevelAwareRoutes.no_name _) eqn:Hname; simpl;
    [split_and!; [discriminate | by destruct s | done]|].
  destruct (LevelAwareRoutes.bad_level _) eqn:Hlevel; simpl;
    [split_and!; [discriminate | by destruct s | done]|].
  unfold set_profile_merge. simpl.
  destruct (forallb _ _); simpl;
    [|split_and!; [discriminate | by destruct s | done]].
  split_and!; [|done|done].
  intros _. destruct (good_level _ Hlevel) as (q & Hq & H1 & H7).
  unfold LevelAwareRoutes.no_name in Hname.
  apply orb_false_iff in Hname as [Ht Hn]. apply negb_false_iff in Ht.
  exists q. eexists. rewrite lookup_insert_eq.
  split_and!; try done.
  - by destruct (String.eqb_spec (StringTrim (ToString (prop body "displayName"))) "").
  - by rewrite lookup_merge_patch.
  - rewrite lookup_merge_patch. simpl. by rewrite Hq.
  - by rewrite lookup_merge_patch.
  - intros k Hk. by rewrite lookup_merge_patch, assoc_None.
  - intros uid' Hne. by rewrite lookup_insert_ne.
Qed.

(** X14.  [POST /profiles/me] never writes to [matches].  When it
    answers 200 the body's level converts to a number between 1 and 7,
    its display name is truthy and not blank, and the caller's profile
    holds that level, the trimmed name and the uid; fields the handler
    does not name and the other profiles are kept.  Any other answer is
    400 and leaves the store as it was. *)
Theorem profile_post_contract s uid (body : obj) now :
  let h := LevelAwareRoutes.post_profiles_me uid body now in
  (code (answer h s) = 200 ->
   exists q d',
     ToNumber (prop body "level") = Fin q /\ (1 <= q)%Q /\ (q <= 7)%Q
     /\ truthy (prop body "displayName") = true
     /\ StringTrim (ToString (prop body "displayName")) <> ""
     /\ profiles (store_after h s) !! uid = Some d'
     /\ d' !! "uid" = Some (VStr uid)
     /\ d' !! "level" = Some (VNum (Fin q))
     /\ d' !! "displayName"
        = Some (VStr (StringTrim (ToString (prop body "displayName"))))
     /\ (forall k, k ∉ (LevelAwareRoutes.profile_doc uid body).*1 ->
           d' !! k = default ∅ (profiles s !! uid) !! k)
     /\ (forall uid', uid' <> uid ->
           profiles (store_after h s) !! uid' = profiles s !! uid')
     /\ matches (store_after h s) = matches s)
  /\ (code (answer h s) <> 200 ->
      code (answer h s) = 400 /\ store_after h s = s)
  /\ writes h s = [].
Proof. exact (posted_profile s uid body now). Qed.

(** X15.  After a [POST /profiles/me] answered 200,
    [GET /profiles/me] returns the stored profile, whose level is the
    number posted and counts as declared for creating and joining
    matches; for a caller without a profile it returns [null]. *)
Theorem profile_round_trip s uid (body : obj) now :
  let post := LevelAwareRoutes.post_profiles_me uid body now in
  (code (answer post s) = 200 ->
   exists d',
     answer (LevelAwareRoutes.get_profiles_me uid) (store_after post s)
     = {| code := 200; body := VObj d' |}
     /\ d' !! "level" = Some (VNum (ToNumber (prop body "level")))
     /\ LevelAware.no_level (Some d') = false)
  /\ (profiles s !! uid = None ->
      answer (LevelAwareRoutes.get_profiles_me uid) s
      = {| code := 200; body := VNull |}).
Proof.
  intros post. split.
  - intros Hok.
    destruct (proj1 (posted_profile s uid body now) Hok)
      as (q & d' & Hq & H1 & H7 & _ & _ & Hd' & _ & Hl & _).
    exists d'. fold post in Hd'.
    generalize dependent (store_after post s). intros s1 Hd'.
    unfold LevelAwareRoutes.get_profiles_me, try_catch_400.
    run_handler. rewrite Hd'. simpl.
    split; [done|]. rewrite Hq. split; [done|].
    unfold LevelAware.no_level. rewrite (prop_lookup _ _ _ Hl). simpl.
    apply negb_false_iff, negb_true_iff, not_true_iff_false.
    rewrite Qeq_bool_iff. lra.
  - intros Hnone. unfold LevelAwareRoutes.get_profiles_me, try_catch_400.
    run_handler.
    by rewrite Hnone.
Qed.


(** X17.  A join of the level-aware revision answered 200 was made by
    a caller whose profile declares a level, on a stored match that was
    open, did not list the caller, had room, and whose numeric bounds
    contain the caller's level; afterwards the caller is the last of its
    players. *)
Theorem level_join_admission s uid id now :
  let h := LevelAware.post_matches_join uid id now in
  code (answer h s) = 200 ->
  exists prof d d',
    profiles s !! uid = Some prof
    /\ truthy (prop prof "level") = true
    /\ matches s !! id = Some d
    /\ prop d "status" = VStr "open"
    /\ (VStr uid ∉ array_or_empty (prop d "players"))
    /\ num_ge (num_of_nat (length (array_or_empty (prop d "players"))))
              (Middle.capacity d) = false
    /\ (forall lo, prop d "levelMin" = VNum lo ->
                   num_le lo (ToNumber (prop prof "level")) = true)
    /\ (forall hi, prop d "levelMax" = VNum hi ->
                   num_le (ToNumber (prop prof "level")) hi = true)
    /\ matches (store_after h s) !! id = Some d'
    /\ d' !! "players"
       = Some (VArr (array_or_empty (prop d "players") ++ [VStr uid])).
Proof.
  intros h. unfold h, LevelAware.post_matches_join. run_handler.
  destruct (profiles s !! uid) as [prof|] eqn:Hprof; simpl; [|discriminate].
  destruct (truthy (prop prof "level")) eqn:Hlevel; simpl; [|discriminate].
  destruct (matches s !! id) as [d|] eqn:Hd; simpl; [|discriminate].
  destruct (is_str "open" _) eqn:Hopen; simpl; [|discriminate].
  destruct (includes _ uid) eqn:Hinc; simpl; [discriminate|].
  destruct (num_ge _ (Middle.capacity d)) eqn:Hcap; simpl; [discriminate|].
  destruct (LevelAware.lvlOk _ d) eqn:Hok; simpl; [|discriminate].
  assert (Hps : apply_patch now d [("players", FArrayUnion uid)] !! "players"
                = Some (VArr (array_or_empty (prop d "players")
                              ++ [VStr uid]))).
  { rewrite lookup_apply_patch. simpl.
    unfold prop in Hinc |- *. destruct (d !! "players") as [[]|]; simpl in *;
      try done.
    by rewrite Hinc. }
  unfold update_match; simpl. rewrite !Hd. simpl.
  rewrite !lookup_insert_eq. simpl. intros _.
  exists prof, d.
  assert (Hlo : forall lo, prop d "levelMin" = VNum lo ->
                  num_le lo (ToNumber (prop prof "level")) = true).
  { intros lo E. unfold LevelAware.lvlOk in Hok. rewrite E in Hok.
    by apply andb_true_iff in Hok as [? _]. }
  assert (Hhi : forall hi, prop d "levelMax" = VNum hi ->
                  num_le (ToNumber (prop prof "level")) hi = true).
  { intros hi E. unfold LevelAware.lvlOk in Hok. rewrite E in Hok.
    by apply andb_true_iff in Hok as [_ ?]. }
  assert (Hst : prop d "status" = VStr "open").
  { by apply is_str_true. }
  pose proof (includes_false_not_in _ _ Hinc) as Hnot.
  destruct (num_ge (LevelAware.length_or_0 _) _); simpl.
  - rewrite lookup_insert_eq. simpl. rewrite lookup_insert_eq.
    eexists. split_and!; try done.
    rewrite lookup_apply_patch. simpl. exact Hps.
  - rewrite lookup_insert_eq. eexists. split_and!; done.
Qed.

Lemma level_filter_none (str : string) :
  str = "" \/ isNaN (StringToNumber str) = true ->
  Middle.level_filter (Some str) = None.
Proof.
  unfold Middle.level_filter, or_null. intros [-> | H]; [done|].
  destruct (String.eqb str ""); [done | by rewrite H].
Qed.

(** X18.  In the level-aware and middle listings a [level] parameter
    that is empty or does not parse as a number is no filter: the
    handler is the one of a request without the parameter. *)
Theorem non_numeric_level_is_no_filter (str : string) qDate qZone :
  str = "" \/ isNaN (StringToNumber str) = true ->
  LevelAware.get_matches (Some str) qDate qZone
  = LevelAware.get_matches None qDate qZone
  /\ Middle.get_matches (Some str) qDate = Middle.get_matches None qDate.
Proof.
  intros H. unfold LevelAware.get_matches, Middle.get_matches.
  by rewrite (level_filter_none str H).
Qed.

(** X19.  In the band listing a [levelBand] parameter that is not one
    of the six bands, and names nothing inherited either, is no filter:
    the handler is the one of a request without the parameter. *)
Theorem unknown_band_is_no_filter (b : string) qDate :
  Band.own_rank Band.BAND_RANK b = None ->
  ProtoMember b = VUndef \/ ProtoMember b = VNull ->
  Band.get_matches (Some b) qDate = Band.get_matches None qDate.
Proof.
  intros Hown Hproto. unfold Band.get_matches.
  assert (Hrank : match or_null (Some b) with
                  | Some b' => Band.rankOf (VStr b')
                  | None => VNull
                  end = VNull).
  { unfold or_null. destruct (String.eqb b ""); [done|].
    unfold Band.rankOf. change (ToString (VStr b)) with b. rewrite Hown.
    by destruct Hproto as [-> | ->]. }
  by rewrite Hrank.
Qed.

(** X20.  [PUT /profile] of the band revision, when it responds,
    answers 200, writes no match and no other profile, and leaves the
    [level] field of the caller's profile as it was; a caller whose
    profile declared no level before is therefore still refused by the
    level-aware creation.  When it does not respond, nothing has
    changed. *)
Theorem band_profile_writes_no_level s uid (p : obj) now :
  match BandRoutes.put_profile uid p now (start s) with
  | (Some r, w') =>
      code r = 200
      /\ trace w' = []
      /\ matches (db w') = matches s
      /\ (forall uid', uid' <> uid ->
            profiles (db w') !! uid' = profiles s !! uid')
      /\ exists d',
           profiles (db w') !! uid = Some d'
           /\ d' !! "uid" = Some (VStr uid)
           /\ d' !! "level" = default ∅ (profiles s !! uid) !! "level"
           /\ (LevelAware.no_level (profiles s !! uid) = true ->
               forall body now' newId,
                 answer (LevelAware.post_matches uid body now' newId) (db w')
                 = {| code := 400;
                      body := error
                        "Completá tu perfil (nivel) antes de crear partidos" |})
  | (None, w') => w' = start s
  end.
Proof.
  unfold BandRoutes.put_profile, uncaught, bind, Band.trimmed.
  destruct (js_or (prop p "displayName") (VStr "")); simpl; try done.
  unfold set_profile_merge. simpl.
  destruct (forallb _ _); simpl; [|done].
  split_and!; try done.
  - intros uid' Hne. by rewrite lookup_insert_ne.
  - eexists. rewrite lookup_insert_eq. split; [reflexivity|].
    split; [by rewrite lookup_merge_patch|].
    split; [by rewrite lookup_merge_patch|].
    intros Hno body now' newId.
    unfold LevelAware.post_matches. run_handler.
    rewrite lookup_insert_eq. simpl.
    unfold prop at 1. rewrite lookup_merge_patch. simpl.
    unfold LevelAware.no_level, prop in Hno.
    destruct (profiles s !! uid) as [old|]; simpl in *.
    + destruct (old !! "level"); simpl in *.
      * apply negb_true_iff in Hno. by rewrite Hno.
      * done.
    + by rewrite lookup_empty.
Qed.

(** X21.  After [PUT /profile] of the band revision has responded,
    [GET /me] returns the caller's stored profile: it holds the uid, its
    [createdAt] and [updatedAt] are both the time of this save, a body
    without a truthy [levelBand] gives band ["8va"] with rank 1, and
    the fields the handler does not name are as they were. *)
Theorem band_profile_round_trip s uid (p : obj) now :
  match BandRoutes.put_profile uid p now (start s) with
  | (Some r, w') =>
      exists d',
        BandRoutes.get_me uid w'
        = (Some {| code := 200; body := VObj d' |}, w')
        /\ d' !! "uid" = Some (VStr uid)
        /\ d' !! "createdAt" = Some (VTimestamp now)
        /\ d' !! "updatedAt" = Some (VTimestamp now)
        /\ (truthy (prop p "levelBand") = false ->
            d' !! "levelBand" = Some (VStr "8va")
            /\ d' !! "levelBandRank" = Some (VNum (Fin 1)))
        /\ (forall k,
              k ∉ ["uid"; "displayName"; "levelBand"; "levelBandRank";
                   "position"; "styleGame"; "experienceYears"; "age";
                   "gender"; "city"; "zone"; "updatedAt"; "createdAt"] ->
              d' !! k = default ∅ (profiles s !! uid) !! k)
  | (None, w') => w' = start s
  end.
Proof.
  unfold BandRoutes.put_profile, uncaught, bind, Band.trimmed.
  destruct (js_or (prop p "displayName") (VStr "")); simpl; try done.
  unfold set_profile_merge. simpl.
  destruct (forallb _ _); simpl; [|done].
  eexists. unfold BandRoutes.get_me, uncaught, bind, get_profile. simpl.
  rewrite lookup_insert_eq. simpl.
  split; [reflexivity|].
  split; [by rewrite lookup_merge_patch|].
  split; [by rewrite lookup_merge_patch|].
  split; [by rewrite lookup_merge_patch|].
  split.
  - intros Hband. rewrite !lookup_merge_patch. simpl.
    unfold js_or. rewrite Hband. simpl. done.
  - intros k Hk. rewrite lookup_merge_patch, assoc_None; [done|exact Hk].
Qed.
End Access.

Lemma bearer_token_is_verified_witness :
  let next := fun uid => Band.delete_matches uid "m1" in
  LevelAwareRoutes.authMiddleware (SV := Sample.services)
    (Some "Bearer token-ana") next (start Sample.band_created)
  = next "ana" (start Sample.band_created).
Proof.
  intros next.
  apply (proj2 (bearer_token_is_verified (SV := Sample.services)
                  "token-ana" next (start Sample.band_created))).
  discriminate.
Defined.

Lemma no_token_no_entry_witness :
  let next := fun uid => Band.delete_matches uid "m1" in
  answer (BandRoutes.authMiddleware (SV := Sample.services) None next)
    Sample.band_created
  = {| code := 401; body := message "No token" |}
  /\ store_after (LevelAwareRoutes.authMiddleware (SV := Sample.services)
                    (Some "Bearer ") next) Sample.band_created
     = Sample.band_created.
Proof.
  intros next.
  assert (H : String.prefix "Bearer " (default "" None) = false)
    by reflexivity.
  split.
  - exact (proj1 (proj1 (no_token_no_entry (SV := Sample.services)
                           None next Sample.band_created (or_introl H)) H)).
  - exact (proj1 (proj2 (proj2
             (no_token_no_entry (SV := Sample.services)
                (Some "Bearer ") next Sample.band_created
                (or_intror eq_refl))))).
Defined.

Lemma profile_post_contract_witness :
  let h := LevelAwareRoutes.post_profiles_me (RT := Sample.runtime)
             (SV := Sample.services) "caro" Sample.caro_body 7 in
  exists q d',
    profiles (store_after h Sample.players_store) !! "caro" = Some d'
    /\ d' !! "level" = Some (VNum (Fin q)) /\ (1 <= q)%Q /\ (q <= 7)%Q.
Proof.
  intros h.
  assert (Hok : code (answer h Sample.players_store) = 200) by evaluate.
  destruct (proj1 (profile_post_contract (RT := Sample.runtime)
                     (SV := Sample.services)
                     Sample.players_store "caro" Sample.caro_body 7) Hok)
    as (q & d' & _ & H1 & H7 & _ & _ & Hd' & _ & Hl & _).
  exists q, d'. exact (conj Hd' (conj Hl (conj H1 H7))).
Defined.

Lemma profile_round_trip_witness :
  let post := LevelAwareRoutes.post_profiles_me (RT := Sample.runtime)
                (SV := Sample.services) "caro" Sample.caro_body 7 in
  exists d',
    answer (LevelAwareRoutes.get_profiles_me "caro")
           (store_after post Sample.players_store)
    = {| code := 200; body := VObj d' |}
    /\ LevelAware.no_level (Some d') = false.
Proof.
  intros post.
  assert (Hok : code (answer post Sample.players_store) = 200) by evaluate.
  destruct (proj1 (profile_round_trip (RT := Sample.runtime)
                     (SV := Sample.services)
                     Sample.players_store "caro" Sample.caro_body 7) Hok)
    as (d' & Hget & _ & Hlevel).
  exists d'. exact (conj Hget Hlevel).
Defined.


Lemma level_join_admission_witness :
  let h := LevelAware.post_matches_join (RT := Sample.runtime)
             "bea" "m1" 1 in
  exists prof d',
    profiles Sample.level_created !! "bea" = Some prof
    /\ truthy (prop prof "level") = true
    /\ matches (store_after h Sample.level_created) !! "m1" = Some d'
    /\ d' !! "players"
       = Some (VArr (array_or_empty
                       (prop (doc_at Sample.level_created "m1") "players")
                     ++ [VStr "bea"])).
Proof.
  intros h.
  assert (Hok : code (answer h Sample.level_created) = 200) by evaluate.
  assert (Hm : matches Sample.level_created !! "m1"
               = Some (doc_at Sample.level_created "m1")) by stored.
  destruct (level_join_admission (RT := Sample.runtime)
              Sample.level_created "bea" "m1" 1 Hok)
    as (prof & d & d' & Hprof & Hlevel & Hd & _ & _ & _ & _ & _ & Hd' & Hps).
  rewrite Hm in Hd. injection Hd as <-.
  exists prof, d'. exact (conj Hprof (conj Hlevel (conj Hd' Hps))).
Defined.

Lemma non_numeric_level_is_no_filter_witness :
  LevelAware.get_matches (RT := Sample.runtime) (ST := Sample.storage)
    (Some "abc") None None
  = LevelAware.get_matches (RT := Sample.runtime) (ST := Sample.storage)
      None None None.
Proof.
  apply (proj1 (non_numeric_level_is_no_filter (RT := Sample.runtime)
                  (ST := Sample.storage) "abc" None None
                  (or_intror eq_refl))).
Defined.

Lemma unknown_band_is_no_filter_witness :
  Band.get_matches (RT := Sample.runtime) (ST := Sample.storage)
    (Some "9na") None
  = Band.get_matches (RT := Sample.runtime) (ST := Sample.storage)
      None None.
Proof.
  apply (unknown_band_is_no_filter (RT := Sample.runtime)
           (ST := Sample.storage) "9na" None).
  - reflexivity.
  - left. reflexivity.
Defined.
